(** * catalog-service/app/database.py

    A shallow embedding of the database module of the catalog service:
    module initialisation (configuration, engine, session factory), the
    session provider [get_db] and the start-up probe
    [verify_database_connection].

    The module is glue around three libraries (os, python-dotenv,
    SQLAlchemy).  Calls into them are operations of a small effect
    signature; a program is a tree of such operations, of [yield]s and of
    raises, so that [try/finally], [try/except] and [with] can be written
    as the source has them.  SQLAlchemy is an interface ([SQLAlchemy]):
    every statement about the module's own code holds for any behaviour of
    the library, including a library whose calls raise. *)

From stdpp Require Import base strings gmap list.

Local Open Scope string_scope.
Local Open Scope list_scope.
Local Open Scope nat_scope.

(** ** Exceptions *)

(** The part of Python's exception hierarchy the module can tell apart:
    [except Exception] catches every class below [Exception] and lets the
    three classes that derive from [BaseException] directly go by. *)
Inductive exn_class : Type :=
  | ValueError
  | RuntimeError
  | StopIteration
  | LibraryError (cls : string)
  | KeyboardInterrupt
  | SystemExit
  | GeneratorExit.

Definition is_Exception (c : exn_class) : bool :=
  match c with
  | KeyboardInterrupt | SystemExit | GeneratorExit => false
  | _ => true
  end.

(** An exception instance: its class and [str(e)]. *)
Record exn : Type := Exn { exn_cls : exn_class; exn_str : string }.

Definition isinstance_Exception (e : exn) : bool := is_Exception (exn_cls e).

(** ** Library objects *)

Record Engine : Type := EngineRef { engine_id : nat }.
Record Factory : Type := FactoryRef { factory_id : nat }.
Record Session : Type := SessionRef { session_id : nat }.
Record Connection : Type := ConnectionRef { connection_id : nat }.
Record DeclarativeBase : Type := BaseRef { base_id : nat }.

(** Keyword arguments of [create_engine] and [sessionmaker], as the module
    passes them. *)
Record EngineKw : Type := MkEngineKw {
  pool_pre_ping : bool;
  pool_size : nat;
  max_overflow : nat;
  echo : bool
}.

Record SessionKw : Type := MkSessionKw {
  autocommit : bool;
  autoflush : bool;
  bind : Engine
}.

(** ** Operations *)

(** Calls into SQLAlchemy. *)
Inductive lib_op : Type :=
  | Create_engine (url : string) (kw : EngineKw)
  | Sessionmaker (kw : SessionKw)
  | Declarative_base
  | Factory_call (f : Factory)
  | Session_close (db : Session)
  | Engine_connect (e : Engine)
  | Connection_execute (c : Connection) (sql : string)
  | Connection_close (c : Connection).

Definition lib_res (o : lib_op) : Type :=
  match o with
  | Create_engine _ _ => Engine
  | Sessionmaker _ => Factory
  | Declarative_base => DeclarativeBase
  | Factory_call _ => Session
  | Session_close _ => unit
  | Engine_connect _ => Connection
  | Connection_execute _ _ => unit
  | Connection_close _ => unit
  end.

(** All operations: the process environment, standard output, and the
    library. *)
Inductive op : Type :=
  | Load_dotenv
  | Getenv (key : string)
  | Print (line : string)
  | Lib (o : lib_op).

Coercion Lib : lib_op >-> op.

Definition res (o : op) : Type :=
  match o with
  | Load_dotenv => unit
  | Getenv _ => option string
  | Print _ => unit
  | Lib o => lib_res o
  end.

(** What a call came back with: an exception or a value. *)
Definition result (A : Type) : Type := exn + A.

Definition raised {A} (r : result A) : option exn :=
  match r with inl e => Some e | inr _ => None end.

(** The library as an interface: each call, in a library state, either
    raises or returns, and leaves a library state. *)
Class SQLAlchemy (L : Type) : Type :=
  sqla_call : ∀ o : lib_op, L → result (lib_res o) * L.

(** ** Programs *)

(** How a suspended generator is resumed: by [next()] or by [throw(e)]. *)
Inductive resume : Type :=
  | Resume_next
  | Resume_throw (e : exn).

(** A function body: it returns, raises, performs an operation and goes on
    with its result, or yields and goes on when resumed.  [Y] is the type
    of yielded values; an ordinary function has no [Yield].  Exceptions
    are values here and have no identity of their own, so the one case in
    which Python looks at identity is kept apart: [Raise_thrown e] raises
    the very exception object that the caller threw into the generator. *)
Inductive Prog (Y A : Type) : Type :=
  | Ret (a : A)
  | Raise (e : exn)
  | Raise_thrown (e : exn)
  | Do (o : op) (k : result (res o) → Prog Y A)
  | Yield (y : Y) (k : resume → Prog Y A).

Arguments Ret {Y A} a.
Arguments Raise {Y A} e.
Arguments Raise_thrown {Y A} e.
Arguments Do {Y A} o k.
Arguments Yield {Y A} y k.

Fixpoint prog_bind {Y A B} (f : A → Prog Y B) (p : Prog Y A) : Prog Y B :=
  match p with
  | Ret a => f a
  | Raise e => Raise e
  | Raise_thrown e => Raise_thrown e
  | Do o k => Do o (λ r, prog_bind f (k r))
  | Yield y k => Yield y (λ s, prog_bind f (k s))
  end.

Global Instance Prog_ret {Y} : MRet (Prog Y) := λ A a, Ret a.
Global Instance Prog_bind {Y} : MBind (Prog Y) := λ A B f p, prog_bind f p.

(** A call: the operation's exception propagates, its value is returned. *)
Definition call {Y} (o : op) : Prog Y (res o) :=
  Do o (λ r, match r with inl e => Raise e | inr v => Ret v end).

(** The statement [yield y]: resumed by [next()] it goes on, resumed by
    [throw(e)] it raises [e], the object thrown, at the yield. *)
Definition yield {Y} (y : Y) : Prog Y unit :=
  Yield y (λ s, match s with
                | Resume_next => Ret ()
                | Resume_throw e => Raise_thrown e
                end).

(** [try: p finally: f].  [f] runs when [p] returns and when [p] raises;
    an exception of [f] replaces the pending one. *)
Fixpoint try_finally {Y A} (p : Prog Y A) (f : Prog Y unit) : Prog Y A :=
  match p with
  | Ret a => _ ← f; Ret a
  | Raise e => _ ← f; Raise e
  | Raise_thrown e => _ ← f; Raise_thrown e
  | Do o k => Do o (λ r, try_finally (k r) f)
  | Yield y k => Yield y (λ s, try_finally (k s) f)
  end.

(** [try: p except C as e: h e], where [catches] decides [isinstance(e, C)]. *)
Fixpoint try_except {Y A} (p : Prog Y A) (catches : exn → bool)
    (h : exn → Prog Y A) : Prog Y A :=
  match p with
  | Ret a => Ret a
  | Raise e => if catches e then h e else Raise e
  | Raise_thrown e => if catches e then h e else Raise_thrown e
  | Do o k => Do o (λ r, try_except (k r) catches h)
  | Yield y k => Yield y (λ s, try_except (k s) catches h)
  end.

(** [with mgr as c: body c] for a manager whose [__enter__] returns the
    manager itself and whose [__exit__] calls [exit_] and returns [None]
    (so it never suppresses the exception of the body): SQLAlchemy's
    [Connection], with [exit_] its [close]. *)
Definition with_ {Y R A} (mgr : Prog Y R) (exit_ : R → Prog Y unit)
    (body : R → Prog Y A) : Prog Y A :=
  c ← mgr; try_finally (body c) (exit_ c).

(** ** The module *)

(** The module-level names the functions below read. *)
Record Globals : Type := MkGlobals {
  DATABASE_URL : string;
  engine : Engine;
  SessionLocal : Factory;
  Base : DeclarativeBase
}.

(** Truth value of an [Optional[str]]: [None] and the empty string are
    false. *)
Definition truthy (v : option string) : bool :=
  match v with
  | None => false
  | Some s => negb (bool_decide (s = ""))
  end.

Definition config_error : exn :=
  Exn ValueError
    ("La variable DATABASE_URL no esta configurada. " +:+
     "Verifica que tu archivo .env existe y tiene el valor correcto").

(** [os.getenv("ENVIRONMENT") == "development"]. *)
Definition is_development (v : option string) : bool :=
  bool_decide (v = Some "development").

(** The module body, lines 17 to 92, in evaluation order. *)
Definition module_init : Prog Empty_set Globals :=
  _ ← call Load_dotenv;
  url ← call (Getenv "DATABASE_URL");
  if negb (truthy url) then Raise config_error
  else
    env ← call (Getenv "ENVIRONMENT");
    eng ← call (Create_engine (default "" url)
                  {| pool_pre_ping := true;
                     pool_size := 5;
                     max_overflow := 10;
                     echo := is_development env |});
    fac ← call (Sessionmaker
                  {| autocommit := false; autoflush := false; bind := eng |});
    base ← call Declarative_base;
    Ret {| DATABASE_URL := default "" url; engine := eng;
           SessionLocal := fac; Base := base |}.

(** [get_db], lines 98 to 129. *)
Definition get_db (m : Globals) : Prog Session unit :=
  db ← call (Factory_call (SessionLocal m));
  try_finally (yield db) (call (Session_close db)).

(** [get_db] paused at its [yield]: what is left of its body, for a
    generator that has handed out [db]. *)
Definition get_db_paused (db : Session) : resume → Prog Session unit :=
  λ s, try_finally
         (match s with
          | Resume_next => Ret ()
          | Resume_throw e => Raise_thrown e
          end)
         (call (Session_close db)).

Definition probe_message (e : exn) : string :=
  "Error conectando a la base de datos: " +:+ exn_str e.

(** The connect-and-execute sequence, lines 146 and 147:
    [with engine.connect() as connection: connection.execute(text("SELECT 1"))]. *)
Definition probe (m : Globals) : Prog Empty_set unit :=
  with_ (call (Engine_connect (engine m)))
    (λ connection, call (Connection_close connection))
    (λ connection, call (Connection_execute connection "SELECT 1")).

(** [verify_database_connection], lines 135 to 151. *)
Definition verify_database_connection (m : Globals) : Prog Empty_set bool :=
  try_except
    (_ ← probe m; Ret true)
    isinstance_Exception
    (λ e, _ ← call (Print (probe_message e)); Ret false).

(** ** The process: environment, standard output, library state *)

(** Modelled from the spec: python-dotenv's [load_dotenv] is not part of
    the repository.  The spec (4.1, 6) has it read a [.env]-style key/value
    file if one is present and populate the process environment from it
    without overwriting a variable the environment already has.
    [override] is the library's keyword argument; the module calls
    [load_dotenv()] and so leaves it at its default, [False]. *)
Definition load_dotenv (override : bool) (file : option (gmap string string))
    (environ : gmap string string) : gmap string string :=
  match file with
  | None => environ
  | Some vars => if override then vars ∪ environ else environ ∪ vars
  end.

Section Process.
Context {L : Type} `{!SQLAlchemy L}.

Record World : Type := MkWorld {
  environ : gmap string string;
  dotenv_file : option (gmap string string);
  stdout : list string;
  sqla : L
}.

Definition set_environ (w : World) (env : gmap string string) : World :=
  {| environ := env; dotenv_file := dotenv_file w;
     stdout := stdout w; sqla := sqla w |}.

Definition set_stdout (w : World) (out : list string) : World :=
  {| environ := environ w; dotenv_file := dotenv_file w;
     stdout := out; sqla := sqla w |}.

Definition set_sqla (w : World) (l : L) : World :=
  {| environ := environ w; dotenv_file := dotenv_file w;
     stdout := stdout w; sqla := l |}.

Definition lib_perform (o : lib_op) (w : World) : result (lib_res o) * World :=
  let '(r, l) := sqla_call o (sqla w) in (r, set_sqla w l).

(** One operation.  [os.getenv] reads the environment, [print] appends a
    line to standard output, [load_dotenv()] updates the environment. *)
Definition perform (o : op) (w : World) : result (res o) * World :=
  match o as o' return result (res o') * World with
  | Load_dotenv =>
      (inr (), set_environ w (load_dotenv false (dotenv_file w) (environ w)))
  | Getenv key => (inr (environ w !! key), w)
  | Print line => (inr (), set_stdout w (stdout w ++ [line]))
  | Lib o => lib_perform o w
  end.

(** An entry of the trace: the operation performed and the exception it
    raised, if it raised. *)
Definition event : Type := op * option exn.

(** Where a run stops: [Thrown_back e] is [e] raised as the object that
    was thrown in. *)
Inductive outcome (Y A : Type) : Type :=
  | Returned (a : A)
  | Raised (e : exn)
  | Thrown_back (e : exn)
  | Yielded (y : Y) (k : resume → Prog Y A).

Fixpoint exec {Y A} (p : Prog Y A) (w : World)
    : outcome Y A * World * list event :=
  match p with
  | Ret a => (Returned _ _ a, w, [])
  | Raise e => (Raised _ _ e, w, [])
  | Raise_thrown e => (Thrown_back _ _ e, w, [])
  | Yield y k => (Yielded _ _ y k, w, [])
  | Do o k =>
      let '(r, w1) := perform o w in
      let '(out, w2, t) := exec (k r) w1 in
      (out, w2, (o, raised r) :: t)
  end.

(** *** Generator objects *)

Inductive generator (Y : Type) : Type :=
  | Gen_created (body : Prog Y unit)
  | Gen_suspended (k : resume → Prog Y unit)
  | Gen_closed.

(** What [next(g)] or [g.throw(e)] comes back with: a yielded value, the
    end of the generator ([StopIteration] to the caller), an exception
    [e], or, when a [StopIteration] left the generator's body, the
    [RuntimeError] that Python raises from it (PEP 479), with the
    [StopIteration] that is its [__cause__] and whether that is the object
    the caller threw in. *)
Inductive gen_result (Y : Type) : Type :=
  | Gen_yield (y : Y)
  | Gen_stop
  | Gen_raise (e : exn)
  | Gen_runtime_error (cause : exn) (thrown : bool).

Definition is_StopIteration (e : exn) : bool :=
  match exn_cls e with StopIteration => true | _ => false end.

Definition stop_iteration_error : exn :=
  Exn RuntimeError "generator raised StopIteration".

(** An exception on its way out of a generator's body. *)
Definition leaving {Y} (thrown : bool) (e : exn) : gen_result Y :=
  if is_StopIteration e then Gen_runtime_error Y e thrown else Gen_raise Y e.

(** The exception the caller of [next(g)] or [g.throw(e)] sees. *)
Definition gen_exception {Y} (r : gen_result Y) : option exn :=
  match r with
  | Gen_raise _ e => Some e
  | Gen_runtime_error _ _ _ => Some stop_iteration_error
  | Gen_stop _ => Some (Exn StopIteration "")
  | Gen_yield _ _ => None
  end.

Definition gen_run {Y} (p : Prog Y unit) (w : World)
    : gen_result Y * generator Y * World * list event :=
  let '(out, w1, t) := exec p w in
  match out with
  | Returned _ _ _ => (Gen_stop Y, Gen_closed Y, w1, t)
  | Raised _ _ e => (leaving false e, Gen_closed Y, w1, t)
  | Thrown_back _ _ e => (leaving true e, Gen_closed Y, w1, t)
  | Yielded _ _ y k => (Gen_yield Y y, Gen_suspended Y k, w1, t)
  end.

(** [next(g)] and [g.throw(e)].  A generator that has not started lets a
    thrown exception out without running any of its body; a closed one
    stops, or raises what is thrown. *)
Definition gen_resume {Y} (g : generator Y) (s : resume) (w : World)
    : gen_result Y * generator Y * World * list event :=
  match g with
  | Gen_created _ body =>
      match s with
      | Resume_next => gen_run body w
      | Resume_throw e => (leaving true e, Gen_closed Y, w, [])
      end
  | Gen_suspended _ k => gen_run (k s) w
  | Gen_closed _ =>
      match s with
      | Resume_next => (Gen_stop Y, Gen_closed Y, w, [])
      | Resume_throw e => (Gen_raise Y e, Gen_closed Y, w, [])
      end
  end.

Definition gen_next {Y} (g : generator Y) := gen_resume g Resume_next.
Definition gen_throw {Y} (g : generator Y) (e : exn) := gen_resume g (Resume_throw e).

Definition generator_exit : exn := Exn GeneratorExit "".

(** [g.close()], which also runs when a suspended generator is dropped:
    [GeneratorExit] is thrown at the yield; the generator is expected to
    finish or to let it through, any other exception propagates, a
    [StopIteration] of the body as the [RuntimeError] made from it. *)
Definition gen_close {Y} (g : generator Y) (w : World)
    : result unit * generator Y * World * list event :=
  match g with
  | Gen_suspended _ _ =>
      let '(r, g1, w1, t) := gen_throw g generator_exit w in
      match r with
      | Gen_stop _ => (inr (), g1, w1, t)
      | Gen_raise _ e =>
          match exn_cls e with
          | GeneratorExit => (inr (), g1, w1, t)
          | _ => (inl e, g1, w1, t)
          end
      | Gen_runtime_error _ _ _ => (inl stop_iteration_error, g1, w1, t)
      | Gen_yield _ _ =>
          (inl (Exn RuntimeError "generator ignored GeneratorExit"), g1, w1, t)
      end
  | _ => (inr (), Gen_closed Y, w, [])
  end.

(** A generator resumed several times in a row: what each resumption came
    back with, and the operations of all of them. *)
Fixpoint gen_drive {Y} (g : generator Y) (ss : list resume) (w : World)
    : list (gen_result Y) * generator Y * World * list event :=
  match ss with
  | [] => ([], g, w, [])
  | s :: ss' =>
      let '(r, g1, w1, t1) := gen_resume g s w in
      let '(rs, g2, w2, t2) := gen_drive g1 ss' w1 in
      (r :: rs, g2, w2, t1 ++ t2)
  end.

(** *** A unit of work on a provided session

    The caller of [get_db] (the framework's dependency injection, through
    contextlib's generator context manager): it takes the yielded
    session, runs the unit of work on it, and resumes the generator with
    [next()] when the unit of work returned and with [throw(e)] when it
    raised [e] (the docstring of [get_db], lines 103 to 111 and 121 to
    122).  When the [RuntimeError] that comes back was made from the very
    [StopIteration] thrown in, the caller raises that [StopIteration]
    again, as contextlib does.  A provider that does not yield, yields a
    second time, or stops without raising what was thrown into it breaks
    the protocol; the caller reports that as a [RuntimeError].  [get_db]
    does none of these. *)
Definition unit_of_work {A} (provider : Prog Session unit)
    (work : Session → Prog Empty_set A) (w : World)
    : result A * World * list event :=
  let '(r0, g0, w0, t0) := gen_next (Gen_created _ provider) w in
  match r0 with
  | Gen_raise _ e => (inl e, w0, t0)
  | Gen_runtime_error _ _ _ => (inl stop_iteration_error, w0, t0)
  | Gen_stop _ => (inl (Exn RuntimeError "generator didn't yield"), w0, t0)
  | Gen_yield _ db =>
      let '(out, w1, t1) := exec (work db) w0 in
      match out with
      | Returned _ _ a =>
          let '(r2, _, w2, t2) := gen_next g0 w1 in
          (match r2 with
           | Gen_stop _ => inr a
           | Gen_raise _ e => inl e
           | Gen_runtime_error _ _ _ => inl stop_iteration_error
           | Gen_yield _ _ => inl (Exn RuntimeError "generator didn't stop")
           end, w2, (t0 ++ t1 ++ t2))
      | Raised _ _ e | Thrown_back _ _ e =>
          let '(r2, _, w2, t2) := gen_throw g0 e w1 in
          (match r2 with
           | Gen_stop _ => inl (Exn RuntimeError "generator swallowed the exception")
           | Gen_raise _ e' => inl e'
           | Gen_runtime_error _ _ thrown =>
               if thrown then inl e else inl stop_iteration_error
           | Gen_yield _ _ =>
               inl (Exn RuntimeError "generator didn't stop after throw()")
           end, w2, (t0 ++ t1 ++ t2))
      | Yielded _ _ y _ => match y with end
      end
  end.

(** Running an ordinary function. *)
Definition run {A} (p : Prog Empty_set A) (w : World)
    : result A * World * list event :=
  let '(out, w1, t) := exec p w in
  match out with
  | Returned _ _ a => (inr a, w1, t)
  | Raised _ _ e | Thrown_back _ _ e => (inl e, w1, t)
  | Yielded _ _ y _ => match y with end
  end.

(** What a [try/finally] stops with, from what was pending when the
    [finally] block started and what the block itself stopped with. *)
Definition after_finally {Y A} (pending : outcome Y A) (done_ : outcome Y unit)
    : outcome Y A :=
  match done_ with
  | Returned _ _ _ => pending
  | Raised _ _ e' => Raised _ _ e'
  | Thrown_back _ _ e' => Thrown_back _ _ e'
  | Yielded _ _ y k =>
      Yielded _ _ y (λ s, prog_bind
        (λ _, match pending with
              | Returned _ _ a => Ret a
              | Raised _ _ e => Raise e
              | Thrown_back _ _ e => Raise_thrown e
              | Yielded _ _ y' k' => Yield y' k'
              end) (k s))
  end.

(** The exception a [StopIteration] becomes on leaving a generator; any
    other exception leaves as it is. *)
Definition pep479 (e : exn) : exn :=
  if is_StopIteration e then stop_iteration_error else e.

End Process.

Arguments World L : clear implicits.
Arguments outcome : clear implicits.

(** ** The pool and the session, from the spec *)

Module QueuePool.

(** Modelled from the spec: SQLAlchemy's connection pool is not part of
    the repository.  The spec (3, 4.2) has a pool that is created without
    connecting, keeps up to [pool_size] idle connections ready, and under
    load opens up to [max_overflow] further ones; a connection handed
    back is kept idle while there is room and closed otherwise. *)
Record pool : Type := MkPool { idle : nat; checked_out : nat }.

Definition open_connections (p : pool) : nat := idle p + checked_out p.

Inductive request : Type := Checkout | Checkin.

Definition empty : pool := {| idle := 0; checked_out := 0 |}.

Definition step (kw : EngineKw) (p : pool) (r : request) : pool :=
  match r with
  | Checkout =>
      match idle p with
      | S n => {| idle := n; checked_out := S (checked_out p) |}
      | O =>
          if (open_connections p <? pool_size kw + max_overflow kw)
          then {| idle := 0; checked_out := S (checked_out p) |}
          else p
      end
  | Checkin =>
      match checked_out p with
      | O => p
      | S n =>
          if (idle p <? pool_size kw)
          then {| idle := S (idle p); checked_out := n |}
          else {| idle := idle p; checked_out := n |}
      end
  end.

Definition serve (kw : EngineKw) (rs : list request) : pool :=
  fold_left (step kw) rs empty.

(** The spec's invariant (3): the open connections number at most the
    minimum plus the maximum extra, the idle ones at most the minimum. *)
Definition within (kw : EngineKw) (p : pool) : Prop :=
  open_connections p ≤ pool_size kw + max_overflow kw ∧ idle p ≤ pool_size kw.

End QueuePool.

Module OrmSession.

(** Modelled from the spec: SQLAlchemy's session is not part of the
    repository.  The spec (3, 4.3) has writes buffered in memory until a
    flush or commit; with [autoflush] pending writes are flushed before a
    query, with [autocommit] a write is committed as it is made; a
    rollback discards what is not committed. *)
Record session : Type := MkSession {
  pending : list string;     (* buffered in memory *)
  sent : list string;        (* sent to the database, transaction open *)
  committed : list string    (* persisted *)
}.

Inductive request : Type :=
  | Add (write : string)
  | Query
  | Flush
  | Commit
  | Rollback.

Definition fresh (db : list string) : session :=
  {| pending := []; sent := []; committed := db |}.

Definition flush (s : session) : session :=
  {| pending := []; sent := (sent s ++ pending s); committed := committed s |}.

Definition commit (s : session) : session :=
  let s' := flush s in
  {| pending := []; sent := []; committed := (committed s' ++ sent s') |}.

Definition step (kw : SessionKw) (s : session) (r : request) : session :=
  match r with
  | Add write =>
      let s' := {| pending := (pending s ++ [write]);
                   sent := sent s; committed := committed s |} in
      if autocommit kw then commit s' else s'
  | Query => if autoflush kw then flush s else s
  | Flush => flush s
  | Commit => commit s
  | Rollback => {| pending := []; sent := []; committed := committed s |}
  end.

Definition explicit (r : request) : bool :=
  match r with Flush | Commit => true | _ => false end.

Definition serve (kw : SessionKw) (db : list string) (rs : list request) : session :=
  fold_left (step kw) rs (fresh db).

(** The writes made since the last rollback. *)
Definition buffer_step (acc : list string) (r : request) : list string :=
  match r with
  | Add write => acc ++ [write]
  | Rollback => []
  | _ => acc
  end.

Definition writes_since_rollback (rs : list request) : list string :=
  fold_left buffer_step rs [].

End OrmSession.

(** ** A library to run the module against *)

Module Stub.

(** A small stand-in for SQLAlchemy, to evaluate the module on concrete
    processes: it counts the sessions and connections that are out, and
    can be set up with an unreachable database, a failing query, a
    disposed pool, or an interrupt arriving while it connects. *)
Record lib : Type := MkLib {
  next_id : nat;
  sessions_out : list nat;
  connections_out : list nat;
  reachable : bool;
  query_ok : bool;
  disposed : bool;
  interrupted : bool
}.

Definition fresh_id (l : lib) : lib :=
  {| next_id := S (next_id l); sessions_out := sessions_out l;
     connections_out := connections_out l; reachable := reachable l;
     query_ok := query_ok l; disposed := disposed l;
     interrupted := interrupted l |}.

Definition set_sessions (l : lib) (ss : list nat) : lib :=
  {| next_id := next_id l; sessions_out := ss;
     connections_out := connections_out l; reachable := reachable l;
     query_ok := query_ok l; disposed := disposed l;
     interrupted := interrupted l |}.

Definition set_connections (l : lib) (cs : list nat) : lib :=
  {| next_id := next_id l; sessions_out := sessions_out l;
     connections_out := cs; reachable := reachable l;
     query_ok := query_ok l; disposed := disposed l;
     interrupted := interrupted l |}.

Definition without (n : nat) (ns : list nat) : list nat :=
  filter (λ k, k ≠ n) ns.

Definition refused : exn :=
  Exn (LibraryError "OperationalError") "connection refused".
Definition bad_query : exn :=
  Exn (LibraryError "ProgrammingError") "syntax error".
Definition pool_gone : exn :=
  Exn (LibraryError "InvalidRequestError") "pool is disposed".
Definition interrupt : exn := Exn KeyboardInterrupt "".

Definition handle (o : lib_op) (l : lib) : result (lib_res o) * lib :=
  match o as o' return result (lib_res o') * lib with
  | Create_engine _ _ => (inr (EngineRef (next_id l)), fresh_id l)
  | Sessionmaker _ => (inr (FactoryRef (next_id l)), fresh_id l)
  | Declarative_base => (inr (BaseRef (next_id l)), fresh_id l)
  | Factory_call _ =>
      (inr (SessionRef (next_id l)),
       fresh_id (set_sessions l (next_id l :: sessions_out l)))
  | Session_close db =>
      if disposed l then (inl pool_gone, l)
      else (inr (), set_sessions l (without (session_id db) (sessions_out l)))
  | Engine_connect _ =>
      if interrupted l then (inl interrupt, l)
      else if reachable l
      then (inr (ConnectionRef (next_id l)),
            fresh_id (set_connections l (next_id l :: connections_out l)))
      else (inl refused, l)
  | Connection_execute _ _ =>
      if query_ok l then (inr (), l) else (inl bad_query, l)
  | Connection_close c =>
      (inr (), set_connections l (without (connection_id c) (connections_out l)))
  end.

Global Instance stub_sqla : SQLAlchemy lib := handle.

Definition with_disposed (l : lib) : lib :=
  {| next_id := next_id l; sessions_out := sessions_out l;
     connections_out := connections_out l; reachable := reachable l;
     query_ok := query_ok l; disposed := true;
     interrupted := interrupted l |}.


Definition healthy : lib :=
  {| next_id := 0; sessions_out := []; connections_out := [];
     reachable := true; query_ok := true; disposed := false;
     interrupted := false |}.

Definition process (env : list (string * string))
    (file : option (list (string * string))) (l : lib) : World lib :=
  {| environ := list_to_map env;
     dotenv_file := list_to_map <$> file;
     stdout := [];
     sqla := l |}.

Definition unreachable : lib :=
  {| next_id := 0; sessions_out := []; connections_out := [];
     reachable := false; query_ok := true; disposed := false;
     interrupted := false |}.

Definition failing_query : lib :=
  {| next_id := 0; sessions_out := []; connections_out := [];
     reachable := true; query_ok := false; disposed := false;
     interrupted := false |}.

Definition catalog_url : string := "postgresql://catalog@db/catalog".

(** A process about to import the module in development mode. *)
Definition development : World lib :=
  process [("DATABASE_URL", catalog_url); ("ENVIRONMENT", "development")] None healthy.

(** The module's names in a process that has imported it. *)
Definition globals : Globals :=
  {| DATABASE_URL := catalog_url;
     engine := EngineRef 0; SessionLocal := FactoryRef 1; Base := BaseRef 2 |}.

Definition imported (l : lib) : World lib :=
  process [("DATABASE_URL", catalog_url)] None
    {| next_id := 3; sessions_out := sessions_out l;
       connections_out := connections_out l; reachable := reachable l;
       query_ok := query_ok l; disposed := disposed l;
       interrupted := interrupted l |}.

End Stub.

Module Scripted.

(** A second stand-in for the library, to run the module against failing
    calls: its state says which calls raise; the others return a fixed
    object. *)
Definition handle (o : lib_op) (fails : lib_op → bool)
    : result (lib_res o) * (lib_op → bool) :=
  if fails o then (inl Stub.refused, fails)
  else
    (match o as o' return result (lib_res o') with
     | Create_engine _ _ => inr (EngineRef 0)
     | Sessionmaker _ => inr (FactoryRef 1)
     | Declarative_base => inr (BaseRef 2)
     | Factory_call _ => inr (SessionRef 3)
     | Session_close _ => inr ()
     | Engine_connect _ => inr (ConnectionRef 4)
     | Connection_execute _ _ => inr ()
     | Connection_close _ => inr ()
     end, fails).

Global Instance scripted_sqla : SQLAlchemy (lib_op → bool) := handle.

Definition no_session_factory (o : lib_op) : bool :=
  match o with Sessionmaker _ => true | _ => false end.

Definition no_sessions (o : lib_op) : bool :=
  match o with Factory_call _ => true | _ => false end.

Definition no_connection_close (o : lib_op) : bool :=
  match o with Connection_close _ => true | _ => false end.

Definition process (fails : lib_op → bool) : World (lib_op → bool) :=
  {| environ := list_to_map [("DATABASE_URL", Stub.catalog_url)];
     dotenv_file := None;
     stdout := [];
     sqla := fails |}.

End Scripted.

Module Raising.

(** A third stand-in, to choose what a failing call raises: its state
    gives, for each call, the exception it raises, if any. *)
Definition handle (o : lib_op) (raises : lib_op → option exn)
    : result (lib_res o) * (lib_op → option exn) :=
  match raises o with
  | Some e => (inl e, raises)
  | None => ((Scripted.handle o (λ _, false)).1, raises)
  end.

Global Instance raising_sqla : SQLAlchemy (lib_op → option exn) := handle.

Definition exhausted : exn := Exn StopIteration "".

(** [close()] of a session raises [StopIteration]. *)
Definition close_stops (o : lib_op) : option exn :=
  match o with Session_close _ => Some exhausted | _ => None end.

(** The session factory raises [StopIteration]. *)
Definition factory_stops (o : lib_op) : option exn :=
  match o with Factory_call _ => Some exhausted | _ => None end.

Definition process (raises : lib_op → option exn) : World (lib_op → option exn) :=
  {| environ := list_to_map [("DATABASE_URL", Stub.catalog_url)];
     dotenv_file := None;
     stdout := [];
     sqla := raises |}.

End Raising.

(** * Properties *)

(** ** Running composed programs *)

Section Exec.
Context {L : Type} `{!SQLAlchemy L}.
Implicit Types w : World L.

Lemma exec_bind {Y A B} (f : A → Prog Y B) (p : Prog Y A) w :
  exec (prog_bind f p) w =
  let '(out, w1, t) := exec p w in
  match out with
  | Returned _ _ a => let '(out2, w2, t2) := exec (f a) w1 in (out2, w2, t ++ t2)
  | Raised _ _ e => (Raised _ _ e, w1, t)
  | Thrown_back _ _ e => (Thrown_back _ _ e, w1, t)
  | Yielded _ _ y k => (Yielded _ _ y (λ s, prog_bind f (k s)), w1, t)
  end.
Proof.
  revert w. induction p as [a|e|e|o k IH|y k IH]; intros w; simpl.
  - by destruct (exec (f a) w) as [[out2 w2] t2].
  - done.
  - done.
  - destruct (perform o w) as [r w1]. rewrite IH.
    destruct (exec (k r) w1) as [[out w2] t]. destruct out as [a|e|e|y k'].
    + by destruct (exec (f a) w2) as [[out2 w3] t2].
    + done.
    + done.
    + done.
  - done.
Qed.

Lemma exec_try_except {Y A} (p : Prog Y A) catches h w :
  exec (try_except p catches h) w =
  let '(out, w1, t) := exec p w in
  match out with
  | Returned _ _ a => (Returned _ _ a, w1, t)
  | Raised _ _ e =>
      if catches e
      then let '(out2, w2, t2) := exec (h e) w1 in (out2, w2, t ++ t2)
      else (Raised _ _ e, w1, t)
  | Thrown_back _ _ e =>
      if catches e
      then let '(out2, w2, t2) := exec (h e) w1 in (out2, w2, t ++ t2)
      else (Thrown_back _ _ e, w1, t)
  | Yielded _ _ y k => (Yielded _ _ y (λ s, try_except (k s) catches h), w1, t)
  end.
Proof.
  revert w. induction p as [a|e|e|o k IH|y k IH]; intros w; simpl.
  - done.
  - destruct (catches e); [|done].
    by destruct (exec (h e) w) as [[out2 w2] t2].
  - destruct (catches e); [|done].
    by destruct (exec (h e) w) as [[out2 w2] t2].
  - destruct (perform o w) as [r w1]. rewrite IH.
    destruct (exec (k r) w1) as [[out w2] t]. destruct out as [a|e|e|y k'].
    + done.
    + destruct (catches e); [|done].
      by destruct (exec (h e) w2) as [[out2 w3] t2].
    + destruct (catches e); [|done].
      by destruct (exec (h e) w2) as [[out2 w3] t2].
    + done.
  - done.
Qed.

Lemma exec_try_finally {Y A} (p : Prog Y A) (f : Prog Y unit) w :
  exec (try_finally p f) w =
  let '(out, w1, t) := exec p w in
  match out with
  | Yielded _ _ y k => (Yielded _ _ y (λ s, try_finally (k s) f), w1, t)
  | _ => let '(out2, w2, t2) := exec f w1 in
         (after_finally out out2, w2, t ++ t2)
  end.
Proof.
  revert w. induction p as [a|e|e|o k IH|y k IH]; intros w; simpl.
  - change (_ ← f; Ret a) with (prog_bind (λ _ : unit, Ret (Y:=Y) a) f).
    rewrite exec_bind. destruct (exec f w) as [[out2 w2] t2].
    destruct out2; simpl; by rewrite ?app_nil_r.
  - change (_ ← f; Raise e) with (prog_bind (λ _ : unit, Raise (Y:=Y) (A:=A) e) f).
    rewrite exec_bind. destruct (exec f w) as [[out2 w2] t2].
    destruct out2; simpl; by rewrite ?app_nil_r.
  - change (_ ← f; Raise_thrown e)
      with (prog_bind (λ _ : unit, Raise_thrown (Y:=Y) (A:=A) e) f).
    rewrite exec_bind. destruct (exec f w) as [[out2 w2] t2].
    destruct out2; simpl; by rewrite ?app_nil_r.
  - destruct (perform o w) as [r w1]. rewrite IH.
    destruct (exec (k r) w1) as [[out w2] t]. destruct out as [a|e|e|y k'].
    + by destruct (exec f w2) as [[out2 w3] t2].
    + by destruct (exec f w2) as [[out2 w3] t2].
    + by destruct (exec f w2) as [[out2 w3] t2].
    + done.
  - done.
Qed.

End Exec.

(** ** Module initialisation *)

(** Case analysis on an event known to be in an explicit trace. *)
Ltac in_trace H :=
  set_unfold in H; destruct_or?; simplify_eq/=; try done.

Section Init.
Context {L : Type} `{!SQLAlchemy L}.
Implicit Types w : World L.

(** The environment once the [.env] file has been consulted. *)
Lemma module_init_guard w :
  let w0 := set_environ w (load_dotenv false (dotenv_file w) (environ w)) in
  let url := environ w0 !! "DATABASE_URL" in
  let read := [(Load_dotenv, None); (Getenv "DATABASE_URL", None)] in
  run module_init w =
  if truthy url then
    let kw := {| pool_pre_ping := true; pool_size := 5; max_overflow := 10;
                 echo := is_development (environ w0 !! "ENVIRONMENT") |} in
    let create := Create_engine (default "" url) kw in
    let '(r1, l1) := sqla_call create (sqla w0) in
    match r1 with
    | inl e => (inl e, set_sqla w0 l1,
                read ++ [(Getenv "ENVIRONMENT", None); (Lib create, Some e)])
    | inr eng =>
        let make := Sessionmaker {| autocommit := false; autoflush := false;
                                    bind := eng |} in
        let '(r2, l2) := sqla_call make l1 in
        match r2 with
        | inl e => (inl e, set_sqla w0 l2,
                    read ++ [(Getenv "ENVIRONMENT", None); (Lib create, None);
                             (Lib make, Some e)])
        | inr fac =>
            let '(r3, l3) := sqla_call Declarative_base l2 in
            (match r3 with
             | inl e => inl e
             | inr base => inr {| DATABASE_URL := default "" url; engine := eng;
                                  SessionLocal := fac; Base := base |}
             end,
             set_sqla w0 l3,
             read ++ [(Getenv "ENVIRONMENT", None); (Lib create, None);
                      (Lib make, None); (Lib Declarative_base, raised r3)])
        end
    end
  else (inl config_error, w0, read).
Proof.
  cbv zeta. unfold run, module_init. simpl.
  destruct (truthy _); simpl; [|done].
  unfold lib_perform. simpl.
  destruct (sqla_call _ (sqla w)) as [[e|eng] l1]; simpl; [done|].
  unfold lib_perform; simpl.
  destruct (sqla_call _ l1) as [[e|fac] l2]; simpl; [done|].
  unfold lib_perform; simpl.
  destruct (sqla_call _ l2) as [[e|base] l3]; simpl; done.
Qed.

Lemma truthy_false (v : option string) :
  truthy v = false ↔ v = None ∨ v = Some "".
Proof.
  destruct v as [s|]; simpl.
  - rewrite negb_false_iff, bool_decide_eq_true. split.
    + intros ->. by right.
    + intros [?|[= ->]]; done.
  - split; [by left | done].
Qed.

Lemma truthy_true (v : option string) :
  truthy v = true ↔ ∃ s, v = Some s ∧ s ≠ "".
Proof.
  destruct v as [s|]; simpl.
  - rewrite negb_true_iff, bool_decide_eq_false. split.
    + intros Hne. by exists s.
    + by intros (s' & [= ->] & Hne).
  - split; [done | by intros (s' & ? & _)].
Qed.

(** The library calls of a run of the module body, and their arguments. *)
Lemma module_init_calls w r w' t :
  run module_init w = (r, w', t) →
  environ w' = load_dotenv false (dotenv_file w) (environ w) ∧
  (∀ url kw x, (Lib (Create_engine url kw), x) ∈ t →
     environ w' !! "DATABASE_URL" = Some url ∧ url ≠ "" ∧
     kw = {| pool_pre_ping := true; pool_size := 5; max_overflow := 10;
             echo := is_development (environ w' !! "ENVIRONMENT") |}) ∧
  (∀ kw x, (Lib (Sessionmaker kw), x) ∈ t →
     autocommit kw = false ∧ autoflush kw = false).
Proof.
  rewrite module_init_guard. cbv zeta. simpl.
  destruct (truthy _) eqn:Hurl.
  - apply truthy_true in Hurl as (s & Hs & Hne). rewrite Hs. simpl.
    destruct (sqla_call _ (sqla w)) as [[e|eng] l1].
    { intros [= <- <- <-]. simpl. split_and!; [done| |].
      - intros url kw x Hin. by in_trace Hin.
      - intros kw x Hin. by in_trace Hin. }
    destruct (sqla_call _ l1) as [[e|fac] l2].
    { intros [= <- <- <-]. simpl. split_and!; [done| |].
      - intros url kw x Hin. by in_trace Hin.
      - intros kw x Hin. by in_trace Hin. }
    destruct (sqla_call _ l2) as [r3 l3].
    intros [= <- <- <-]. simpl. split_and!; [done| |].
    + intros url kw x Hin. by in_trace Hin.
    + intros kw x Hin. by in_trace Hin.
  - intros [= <- <- <-]. simpl. split_and!; [done| |].
    + intros url kw x Hin. by in_trace Hin.
    + intros kw x Hin. by in_trace Hin.
Qed.

Lemma load_dotenv_lookup (file : option (gmap string string))
    (env : gmap string string) k :
  load_dotenv false file env !! k =
  match env !! k with
  | Some v => Some v
  | None => file ≫= (λ vars, vars !! k)
  end.
Proof.
  unfold load_dotenv. destruct file as [vars|]; simpl.
  - rewrite lookup_union. destruct (env !! k), (vars !! k); done.
  - by destruct (env !! k).
Qed.

(** The module body starts by loading the [.env] file, then reads
    DATABASE_URL. *)
Lemma module_init_loads_first w r w' t :
  run module_init w = (r, w', t) →
  t !! 0 = Some (Load_dotenv, None) ∧
  t !! 1 = Some (Getenv "DATABASE_URL", None).
Proof.
  rewrite module_init_guard. cbv zeta. simpl.
  destruct (truthy _).
  - destruct (sqla_call _ (sqla w)) as [[e|eng] l1]; [by intros [= <- <- <-]|].
    destruct (sqla_call _ l1) as [[e|fac] l2]; [by intros [= <- <- <-]|].
    destruct (sqla_call _ l2) as [r3 l3]. by intros [= <- <- <-].
  - by intros [= <- <- <-].
Qed.

End Init.

(** ** The pool and the session *)

Section Pool.
Import QueuePool.

Lemma step_within kw p r : within kw p → within kw (step kw p r).
Proof.
  unfold within, open_connections. intros [Hopen Hidle].
  destruct r; simpl.
  - destruct (idle p) as [|n] eqn:Hi; simpl.
    + unfold open_connections. rewrite Hi. simpl.
      destruct (Nat.ltb_spec (checked_out p) (pool_size kw + max_overflow kw));
        simpl; lia.
    + lia.
  - destruct (checked_out p) as [|n] eqn:Ho; simpl; [lia|].
    destruct (Nat.ltb_spec (idle p) (pool_size kw)); simpl; lia.
Qed.

Lemma fold_within kw rs p : within kw p → within kw (fold_left (step kw) rs p).
Proof.
  revert p. induction rs as [|r rs IH]; intros p Hp; simpl; [done|].
  apply IH. by apply step_within.
Qed.

Lemma serve_within kw rs : within kw (serve kw rs).
Proof. apply fold_within. unfold within, open_connections. simpl. lia. Qed.

End Pool.

Section Buffering.
Import OrmSession.

Lemma fold_buffered kw rs s :
  autocommit kw = false → autoflush kw = false →
  Forall (λ r, explicit r = false) rs →
  sent s = [] →
  let s' := fold_left (step kw) rs s in
  sent s' = [] ∧ committed s' = committed s ∧
  pending s' = fold_left buffer_step rs (pending s).
Proof.
  intros Hac Haf. revert s.
  induction rs as [|r rs IH]; intros s Hrs Hs; simpl; [done|].
  inversion Hrs as [|?? Hr Hrs']; subst.
  destruct r; try discriminate Hr; simpl; rewrite ?Hac, ?Haf.
  - destruct (IH {| pending := pending s ++ [write]; sent := sent s;
                    committed := committed s |} Hrs' Hs) as (?&?&?). done.
  - by apply IH.
  - destruct (IH {| pending := []; sent := []; committed := committed s |}
                Hrs' eq_refl) as (?&?&?). done.
Qed.

End Buffering.

(** ** Claims about configuration *)

Section Configuration.
Context {L : Type} `{!SQLAlchemy L}.
Implicit Types w : World L.

(** C3.  After the optional [.env] file has been consulted: when
    DATABASE_URL is missing or empty, the module body raises the
    configuration error at once, having made no library call at all;
    when it is a non-empty string, the body goes on to [create_engine]
    with it, and an exception that ends the body then is one a library
    call raised, not the configuration error of the guard. *)
Theorem module_init_fails_fast w :
  let w0 := set_environ w (load_dotenv false (dotenv_file w) (environ w)) in
  let url := environ w0 !! "DATABASE_URL" in
  (url = None ∨ url = Some "" →
     run module_init w =
     (inl config_error, w0, [(Load_dotenv, None); (Getenv "DATABASE_URL", None)]))
  ∧ (∀ s, url = Some s → s ≠ "" →
     ∃ r w' t kw x,
       run module_init w = (r, w', t) ∧
       t !! 3 = Some (Lib (Create_engine s kw), x) ∧
       ∀ e, r = inl e → ∃ o : lib_op, (Lib o, Some e) ∈ t).
Proof.
  cbv zeta. split.
  - intros Hurl. apply truthy_false in Hurl.
    rewrite module_init_guard. cbv zeta. by rewrite Hurl.
  - intros s Hs Hne.
    assert (truthy (Some s) = true) as Ht by (apply truthy_true; eauto).
    rewrite module_init_guard. cbv zeta. rewrite Hs, Ht. simpl.
    destruct (sqla_call _ (sqla w)) as [[e|eng] l1].
    { do 5 eexists. split_and!; [done|done|].
      intros e' [= <-]. eexists. apply list_elem_of_lookup. by exists 3. }
    destruct (sqla_call _ l1) as [[e|fac] l2].
    { do 5 eexists. split_and!; [done|done|].
      intros e' [= <-]. eexists. apply list_elem_of_lookup. by exists 4. }
    destruct (sqla_call _ l2) as [[e|base] l3].
    { do 5 eexists. split_and!; [done|done|].
      intros e' [= <-]. eexists. apply list_elem_of_lookup. by exists 5. }
    do 5 eexists. split_and!; [done|done|]. by intros e [=].
Qed.

(** C5.  In any run of the module body, the engine is created with
    [echo] true exactly when the ENVIRONMENT variable of the process, as
    read at start-up, is the string "development"; for every other
    value, and when it is unset, [echo] is false. *)
Theorem echo_iff_development w r w' t url kw x :
  run module_init w = (r, w', t) →
  (Lib (Create_engine url kw), x) ∈ t →
  environ w' = load_dotenv false (dotenv_file w) (environ w) ∧
  (echo kw = true ↔ environ w' !! "ENVIRONMENT" = Some "development") ∧
  (echo kw = false ↔ environ w' !! "ENVIRONMENT" ≠ Some "development").
Proof.
  intros Hrun Hin.
  destruct (module_init_calls _ _ _ _ Hrun) as (Henv & Hcreate & _).
  destruct (Hcreate _ _ _ Hin) as (_ & _ & ->). simpl.
  unfold is_development. split_and!; [done| |].
  - apply bool_decide_eq_true.
  - apply bool_decide_eq_false.
Qed.

(** C4.  In any run of the module body, the engine is created with
    [pool_size] 5 and [max_overflow] 10, and a pool with these settings
    never has more than 15 connections open, of which at most 5 idle and
    so at most 10 beyond the 5 base ones, whatever the sequence of
    checkouts and checkins. *)
Theorem pool_never_exceeds_15 w r w' t url kw x :
  run module_init w = (r, w', t) →
  (Lib (Create_engine url kw), x) ∈ t →
  pool_size kw = 5 ∧ max_overflow kw = 10 ∧
  ∀ rs, QueuePool.open_connections (QueuePool.serve kw rs) ≤ 15 ∧
        QueuePool.idle (QueuePool.serve kw rs) ≤ 5 ∧
        QueuePool.open_connections (QueuePool.serve kw rs) - pool_size kw ≤ 10.
Proof.
  intros Hrun Hin.
  destruct (module_init_calls _ _ _ _ Hrun) as (_ & Hcreate & _).
  destruct (Hcreate _ _ _ Hin) as (_ & _ & ->). simpl.
  split_and!; [done|done|]. intros rs.
  destruct (serve_within
    {| pool_pre_ping := true; pool_size := 5; max_overflow := 10;
       echo := is_development (environ w' !! "ENVIRONMENT") |} rs)
    as [Hopen Hidle].
  simpl in Hopen, Hidle. lia.
Qed.

(** C6.  In any run of the module body, the session factory is made with
    [autocommit] and [autoflush] both off, and a session with these
    settings sends nothing to the database and persists nothing as long
    as the caller neither flushes nor commits: its writes stay buffered
    in memory, also across queries. *)
Theorem session_writes_are_buffered w r w' t kw x :
  run module_init w = (r, w', t) →
  (Lib (Sessionmaker kw), x) ∈ t →
  autocommit kw = false ∧ autoflush kw = false ∧
  ∀ db rs, Forall (λ q, OrmSession.explicit q = false) rs →
    OrmSession.sent (OrmSession.serve kw db rs) = [] ∧
    OrmSession.committed (OrmSession.serve kw db rs) = db ∧
    OrmSession.pending (OrmSession.serve kw db rs) =
      OrmSession.writes_since_rollback rs.
Proof.
  intros Hrun Hin.
  destruct (module_init_calls _ _ _ _ Hrun) as (_ & _ & Hmake).
  destruct (Hmake _ _ Hin) as [Hac Haf].
  split_and!; [done|done|]. intros db rs Hrs.
  by apply (fold_buffered kw rs (OrmSession.fresh db) Hac Haf Hrs).
Qed.

(** C7.  The module body starts by loading the optional [.env] file, and
    in the environment it leaves, a variable the process environment
    already had keeps its value, whatever the file says, and a variable it
    did not have takes the file's value, if there is a file and it has
    one.  The module works with these values: the connection string and
    the ENVIRONMENT it creates the engine from are the environment's own
    when it has them, and the file's otherwise. *)
Theorem dotenv_keeps_environment w r w' t :
  run module_init w = (r, w', t) →
  t !! 0 = Some (Load_dotenv, None) ∧
  (∀ k v, environ w !! k = Some v → environ w' !! k = Some v) ∧
  (∀ k, environ w !! k = None →
        environ w' !! k = dotenv_file w ≫= (λ vars, vars !! k)) ∧
  (∀ url kw x, (Lib (Create_engine url kw), x) ∈ t →
     match environ w !! "DATABASE_URL" with
     | Some v => v = url
     | None => dotenv_file w ≫= (λ vars, vars !! "DATABASE_URL") = Some url
     end ∧
     echo kw = is_development
                 match environ w !! "ENVIRONMENT" with
                 | Some v => Some v
                 | None => dotenv_file w ≫= (λ vars, vars !! "ENVIRONMENT")
                 end).
Proof.
  intros Hrun.
  destruct (module_init_loads_first _ _ _ _ Hrun) as [Hfirst _].
  destruct (module_init_calls _ _ _ _ Hrun) as (Henv & Hcreate & _).
  split_and!; [done| | |].
  - intros k v Hk. by rewrite Henv, load_dotenv_lookup, Hk.
  - intros k Hk. by rewrite Henv, load_dotenv_lookup, Hk.
  - intros url kw x Hin.
    destruct (Hcreate _ _ _ Hin) as (Hurl & _ & ->). simpl.
    rewrite Henv, !load_dotenv_lookup in *.
    split; [|done].
    destruct (environ w !! "DATABASE_URL"); [by injection Hurl|done].
Qed.

End Configuration.

(** ** The session provider *)

Section Provider.
Context {L : Type} `{!SQLAlchemy L}.
Implicit Types (w : World L) (db : Session) (m : Globals).

Lemma leaving_not_yield {Y} thrown e (y : Y) : leaving thrown e ≠ Gen_yield Y y.
Proof. unfold leaving. by destruct (is_StopIteration e). Qed.

(** The first [next()]: the factory is called; the generator yields the
    session, or ends with the factory's exception. *)
Lemma get_db_starts m w :
  gen_next (Gen_created _ (get_db m)) w =
  let open := Factory_call (SessionLocal m) in
  let '(r, l0) := sqla_call open (sqla w) in
  match r with
  | inl e => (leaving false e, Gen_closed _, set_sqla w l0, [(Lib open, Some e)])
  | inr db => (Gen_yield _ db, Gen_suspended _ (get_db_paused db),
               set_sqla w l0, [(Lib open, None)])
  end.
Proof.
  unfold gen_next, gen_resume, gen_run, get_db. simpl. unfold lib_perform.
  destruct (sqla_call _ (sqla w)) as [[e|db] l0]; reflexivity.
Qed.

(** Resuming at the yield: the [finally] block runs in either case. *)
Lemma get_db_resumes db s w :
  gen_resume (Gen_suspended _ (get_db_paused db)) s w =
  let '(rc, l) := sqla_call (Session_close db) (sqla w) in
  (match rc, s with
   | inl ec, _ => leaving false ec
   | inr _, Resume_next => Gen_stop _
   | inr _, Resume_throw e => leaving true e
   end, Gen_closed _, set_sqla w l, [(Lib (Session_close db), raised rc)]).
Proof.
  unfold gen_resume, gen_run, get_db_paused.
  destruct s as [|e]; simpl; unfold lib_perform;
    destruct (sqla_call _ (sqla w)) as [[ec|[]] l]; reflexivity.
Qed.

Lemma get_db_yielded m w db g w0 t0 :
  gen_next (Gen_created _ (get_db m)) w = (Gen_yield _ db, g, w0, t0) →
  g = Gen_suspended _ (get_db_paused db) ∧
  sqla_call (Factory_call (SessionLocal m)) (sqla w) = (inr db, sqla w0) ∧
  w0 = set_sqla w (sqla w0) ∧
  t0 = [(Lib (Factory_call (SessionLocal m)), None)].
Proof.
  rewrite get_db_starts. cbv zeta.
  destruct (sqla_call _ (sqla w)) as [[e|db'] l0].
  - intros [= Hleft _ _ _]. by apply leaving_not_yield in Hleft.
  - by intros [= -> <- <- <-].
Qed.

(** Dropping or closing the paused generator. *)
Lemma get_db_dropped db w :
  gen_close (Gen_suspended _ (get_db_paused db)) w =
  let '(rc, l) := sqla_call (Session_close db) (sqla w) in
  (match rc with
   | inl ec =>
       if is_StopIteration ec then inl stop_iteration_error
       else match exn_cls ec with
            | GeneratorExit => inr ()
            | _ => inl ec
            end
   | inr _ => inr ()
   end, Gen_closed _, set_sqla w l, [(Lib (Session_close db), raised rc)]).
Proof.
  unfold gen_close, gen_throw. rewrite get_db_resumes.
  destruct (sqla_call _ (sqla w)) as [[ec|[]] l]; [|reflexivity].
  unfold leaving, is_StopIteration.
  destruct (exn_cls ec) eqn:Hcls; simpl; rewrite ?Hcls; reflexivity.
Qed.

(** A whole unit of work on [get_db]. *)
Lemma unit_of_work_get_db m {A} (work : Session → Prog Empty_set A) w :
  unit_of_work (get_db m) work w =
  let open := Factory_call (SessionLocal m) in
  let '(r0, l0) := sqla_call open (sqla w) in
  match r0 with
  | inl e => (inl (pep479 e), set_sqla w l0, [(Lib open, Some e)])
  | inr db =>
      let '(r1, w1, t1) := run (work db) (set_sqla w l0) in
      let '(rc, l2) := sqla_call (Session_close db) (sqla w1) in
      (match rc with inl ec => inl (pep479 ec) | inr _ => r1 end,
       set_sqla w1 l2,
       (Lib open, None) :: t1 ++ [(Lib (Session_close db), raised rc)])
  end.
Proof.
  unfold unit_of_work, run. rewrite get_db_starts. cbv zeta.
  destruct (sqla_call _ (sqla w)) as [[e|db] l0].
  { unfold leaving, pep479. by destruct (is_StopIteration e). }
  destruct (exec (work db) (set_sqla w l0)) as [[out w1] t1].
  destruct out as [a|e|e|[] ?].
  - unfold gen_next. rewrite get_db_resumes.
    destruct (sqla_call _ (sqla w1)) as [[ec|[]] l2]; [|done].
    unfold leaving, pep479. by destruct (is_StopIteration ec).
  - unfold gen_throw. rewrite get_db_resumes.
    destruct (sqla_call _ (sqla w1)) as [[ec|[]] l2];
      unfold leaving, pep479;
      [by destruct (is_StopIteration ec) | by destruct (is_StopIteration e)].
  - unfold gen_throw. rewrite get_db_resumes.
    destruct (sqla_call _ (sqla w1)) as [[ec|[]] l2];
      unfold leaving, pep479;
      [by destruct (is_StopIteration ec) | by destruct (is_StopIteration e)].
Qed.

(** C1.  Once [get_db] has yielded a session, however the caller's unit
    of work ends (the generator is resumed by [next()] after a normal
    end, by [throw(e)] after an error, or is closed without being
    resumed), the generator performs exactly one operation, [close()] on
    the session it yielded, and is finished; the library is left in the
    state its [close] leaves.  For a whole unit of work, the trace is
    the factory call, the work, and the close of that session. *)
Theorem get_db_closes_session m w db g w0 t0 :
  gen_next (Gen_created _ (get_db m)) w = (Gen_yield _ db, g, w0, t0) →
  let close := Session_close db in
  (∀ s w1, ∃ r,
     gen_resume g s w1 =
     (r, Gen_closed _, set_sqla w1 (sqla_call close (sqla w1)).2,
      [(Lib close, raised (sqla_call close (sqla w1)).1)]))
  ∧ (∀ w1, ∃ r,
     gen_close g w1 =
     (r, Gen_closed _, set_sqla w1 (sqla_call close (sqla w1)).2,
      [(Lib close, raised (sqla_call close (sqla w1)).1)]))
  ∧ (∀ A (work : Session → Prog Empty_set A),
     let '(_, w1, t1) := run (work db) w0 in
     ∃ r,
       unit_of_work (get_db m) work w =
       (r, set_sqla w1 (sqla_call close (sqla w1)).2,
        t0 ++ t1 ++ [(Lib close, raised (sqla_call close (sqla w1)).1)])).
Proof.
  intros Hnext close.
  apply get_db_yielded in Hnext as (-> & Hopen & Hw0 & ->).
  split_and!.
  - intros s w1. rewrite get_db_resumes. fold close.
    destruct (sqla_call close (sqla w1)) as [rc l]. eauto.
  - intros w1. rewrite get_db_dropped. fold close.
    destruct (sqla_call close (sqla w1)) as [rc l]. eauto.
  - intros A work. rewrite unit_of_work_get_db. cbv zeta.
    rewrite Hopen, <- Hw0.
    destruct (run (work db) w0) as [[r1 w1] t1]. fold close.
    destruct (sqla_call close (sqla w1)) as [rc l]. eauto.
Qed.

(** C8.  When [close()] raises [ec] during the clean-up of [get_db],
    nothing in [get_db] catches it: however the generator was resumed, the
    failed close is its last operation and the failure comes out of it,
    and out of the unit of work.  What comes out is [ec] itself, except
    that Python hands a [StopIteration] out of a generator as the
    [RuntimeError] "generator raised StopIteration" made from it. *)
Theorem get_db_close_failure_propagates m w db g w0 t0 w1 ec l :
  gen_next (Gen_created _ (get_db m)) w = (Gen_yield _ db, g, w0, t0) →
  sqla_call (Session_close db) (sqla w1) = (inl ec, l) →
  (∀ s, gen_resume g s w1 =
        (if is_StopIteration ec then Gen_runtime_error _ ec false
         else Gen_raise _ ec,
         Gen_closed _, set_sqla w1 l,
         [(Lib (Session_close db), Some ec)]))
  ∧ (∀ A (work : Session → Prog Empty_set A) r1 t1,
       run (work db) w0 = (r1, w1, t1) →
       unit_of_work (get_db m) work w =
       (inl (if is_StopIteration ec then stop_iteration_error else ec),
        set_sqla w1 l, t0 ++ t1 ++ [(Lib (Session_close db), Some ec)])).
Proof.
  intros Hnext Hclose.
  apply get_db_yielded in Hnext as (-> & Hopen & Hw0 & ->).
  split.
  - intros s. by rewrite get_db_resumes, Hclose.
  - intros A work r1 t1 Hwork. rewrite unit_of_work_get_db. cbv zeta.
    by rewrite Hopen, <- Hw0, Hwork, Hclose.
Qed.

(** C9, as amended.  The unit of work raises [e] into [get_db].  When
    [close()] returns, the generator has closed the session and lets [e]
    out again, unchanged, and [e] is what comes out of the unit of work;
    only a [StopIteration] leaves the generator as the [RuntimeError]
    "generator raised StopIteration" made from it, which the caller turns
    back into [e].  When [close()] raises [ec], [ec] comes out in place of
    [e], of the generator and of the unit of work, a [StopIteration]
    again as that [RuntimeError]. *)
Theorem get_db_reraises_after_close m w db g w0 t0 w1 e :
  gen_next (Gen_created _ (get_db m)) w = (Gen_yield _ db, g, w0, t0) →
  (∀ l, sqla_call (Session_close db) (sqla w1) = (inr (), l) →
     gen_throw g e w1 =
       (if is_StopIteration e then Gen_runtime_error _ e true else Gen_raise _ e,
        Gen_closed _, set_sqla w1 l, [(Lib (Session_close db), None)])
     ∧ ∀ A (work : Session → Prog Empty_set A) t1,
         run (work db) w0 = (inl e, w1, t1) →
         unit_of_work (get_db m) work w =
         (inl e, set_sqla w1 l, t0 ++ t1 ++ [(Lib (Session_close db), None)]))
  ∧ (∀ ec l, sqla_call (Session_close db) (sqla w1) = (inl ec, l) →
     gen_throw g e w1 =
       (if is_StopIteration ec then Gen_runtime_error _ ec false
        else Gen_raise _ ec,
        Gen_closed _, set_sqla w1 l, [(Lib (Session_close db), Some ec)])
     ∧ ∀ A (work : Session → Prog Empty_set A) t1,
         run (work db) w0 = (inl e, w1, t1) →
         unit_of_work (get_db m) work w =
         (inl (if is_StopIteration ec then stop_iteration_error else ec),
          set_sqla w1 l, t0 ++ t1 ++ [(Lib (Session_close db), Some ec)])).
Proof.
  intros Hnext.
  apply get_db_yielded in Hnext as (-> & Hopen & Hw0 & ->).
  split.
  - intros l Hclose. split.
    + unfold gen_throw. by rewrite get_db_resumes, Hclose.
    + intros A work t1 Hwork. rewrite unit_of_work_get_db. cbv zeta.
      by rewrite Hopen, <- Hw0, Hwork, Hclose.
  - intros ec l Hclose. split.
    + unfold gen_throw. by rewrite get_db_resumes, Hclose.
    + intros A work t1 Hwork. rewrite unit_of_work_get_db. cbv zeta.
      by rewrite Hopen, <- Hw0, Hwork, Hclose.
Qed.

End Provider.

(** ** The start-up probe *)

Section Probe.
Context {L : Type} `{!SQLAlchemy L}.
Implicit Types (w : World L) (m : Globals).

Lemma run_bind {A B} (f : A → Prog Empty_set B) (p : Prog Empty_set A) w :
  run (prog_bind f p) w =
  let '(r, w1, t) := run p w in
  match r with
  | inr a => let '(r2, w2, t2) := run (f a) w1 in (r2, w2, t ++ t2)
  | inl e => (inl e, w1, t)
  end.
Proof.
  unfold run. rewrite exec_bind.
  destruct (exec p w) as [[out w1] t]. destruct out as [a|e|e|[] ?]; [|done|done].
  destruct (exec (f a) w1) as [[out2 w2] t2]. by destruct out2 as [b|e|e|[] ?].
Qed.

Lemma run_try_except {A} (p : Prog Empty_set A) catches h w :
  run (try_except p catches h) w =
  let '(r, w1, t) := run p w in
  match r with
  | inr a => (inr a, w1, t)
  | inl e =>
      if catches e
      then let '(r2, w2, t2) := run (h e) w1 in (r2, w2, t ++ t2)
      else (inl e, w1, t)
  end.
Proof.
  unfold run. rewrite exec_try_except.
  destruct (exec p w) as [[out w1] t]. destruct out as [a|e|e|[] ?]; [done| |].
  - destruct (catches e); [|done].
    destruct (exec (h e) w1) as [[out2 w2] t2]. by destruct out2 as [b|e'|e'|[] ?].
  - destruct (catches e); [|done].
    destruct (exec (h e) w1) as [[out2 w2] t2]. by destruct out2 as [b|e'|e'|[] ?].
Qed.

(** The connect-and-execute sequence: the connection, once opened, is
    closed when the query returned and when it raised. *)
Lemma run_probe m w :
  run (probe m) w =
  let connect := Engine_connect (engine m) in
  let '(r0, l0) := sqla_call connect (sqla w) in
  match r0 with
  | inl e => (inl e, set_sqla w l0, [(Lib connect, Some e)])
  | inr c =>
      let '(r1, l1) := sqla_call (Connection_execute c "SELECT 1") l0 in
      let '(r2, l2) := sqla_call (Connection_close c) l1 in
      (match r2, r1 with
       | inl e2, _ => inl e2
       | inr _, inl e1 => inl e1
       | inr _, inr _ => inr ()
       end,
       set_sqla w l2,
       [(Lib connect, None);
        (Lib (Connection_execute c "SELECT 1"), raised r1);
        (Lib (Connection_close c), raised r2)])
  end.
Proof.
  unfold run, probe, with_. simpl. unfold lib_perform.
  destruct (sqla_call _ (sqla w)) as [[e|c] l0]; [reflexivity|]. simpl.
  unfold lib_perform. simpl.
  destruct (sqla_call _ l0) as [[e1|[]] l1]; simpl; unfold lib_perform; simpl;
    destruct (sqla_call _ l1) as [[e2|[]] l2]; reflexivity.
Qed.

Lemma run_verify m w :
  run (verify_database_connection m) w =
  let '(r, w1, t) := run (probe m) w in
  match r with
  | inr _ => (inr true, w1, t)
  | inl e =>
      if isinstance_Exception e
      then (inr false, set_stdout w1 (stdout w1 ++ [probe_message e]),
            t ++ [(Print (probe_message e), None)])
      else (inl e, w1, t)
  end.
Proof.
  unfold verify_database_connection. rewrite run_try_except.
  change (_ ← probe m; Ret true)
    with (prog_bind (λ _ : unit, Ret (Y:=Empty_set) true) (probe m)).
  rewrite run_bind.
  destruct (run (probe m) w) as [[[e|[]] w1] t]; simpl.
  - done.
  - by rewrite app_nil_r.
Qed.


(** C10.  In the probe, a connection that [engine.connect()] returned is
    closed on both outcomes: the trace is the connect, the query, and
    the close of that connection, whether or not the query raised, and
    after the close only the [print] of the handler can follow.  When
    [engine.connect()] raised there is no connection to close. *)
Theorem probe_closes_connection m w :
  let connect := Engine_connect (engine m) in
  match (sqla_call connect (sqla w)).1 with
  | inr c =>
      ∃ r w' x y rest,
        run (verify_database_connection m) w =
        (r, w',
         [(Lib connect, None); (Lib (Connection_execute c "SELECT 1"), x);
          (Lib (Connection_close c), y)] ++ rest) ∧
        ∀ ev, ev ∈ rest → ∃ line, ev = (Print line, None)
  | inl e =>
      ∃ r w' rest,
        run (verify_database_connection m) w =
        (r, w', (Lib connect, Some e) :: rest) ∧
        ∀ ev, ev ∈ rest → ∃ line, ev = (Print line, None)
  end.
Proof.
  cbv zeta. rewrite run_verify, run_probe. cbv zeta.
  destruct (sqla_call _ (sqla w)) as [[e|c] l0]; simpl.
  - destruct (isinstance_Exception e).
    + do 3 eexists. split; [done|]. intros ev Hin. in_trace Hin. eauto.
    + exists (inl e), (set_sqla w l0), []. split; [done|].
      intros ev Hin. in_trace Hin.
  - destruct (sqla_call _ l0) as [r1 l1].
    destruct (sqla_call _ l1) as [r2 l2].
    destruct r2 as [e2|[]]; [|destruct r1 as [e1|[]]].
    + destruct (isinstance_Exception e2).
      * do 5 eexists. split; [done|]. intros ev Hin. in_trace Hin. eauto.
      * do 4 eexists. exists []. split; [done|]. intros ev Hin. in_trace Hin.
    + destruct (isinstance_Exception e1).
      * do 5 eexists. split; [done|]. intros ev Hin. in_trace Hin. eauto.
      * do 4 eexists. exists []. split; [done|]. intros ev Hin. in_trace Hin.
    + do 4 eexists. exists []. split; [done|]. intros ev Hin. in_trace Hin.
Qed.

End Probe.

(** ** The module on concrete processes *)

Section Runs.
Import Stub.

(** A pool under the module's settings does reach its cap of 15, and
    keeps 5 connections idle once all are handed back. *)
Example pool_reaches_cap :
  QueuePool.serve (MkEngineKw true 5 10 false) (replicate 20 QueuePool.Checkout)
  = {| QueuePool.idle := 0; QueuePool.checked_out := 15 |}
  ∧ QueuePool.serve (MkEngineKw true 5 10 false)
      (replicate 20 QueuePool.Checkout ++ replicate 20 QueuePool.Checkin)
    = {| QueuePool.idle := 5; QueuePool.checked_out := 0 |}.
Proof. split; reflexivity. Qed.

(** Sessions return to the pool after successful and after failing
    units of work alike. *)
Example sessions_return_to_baseline :
  let ok := unit_of_work (get_db globals) (λ _, Ret 7) (imported healthy) in
  let ko := unit_of_work (get_db globals) (λ _, Raise (A:=nat) bad_query) ok.1.2 in
  ok.1.1 = inr 7 ∧ sessions_out (sqla ok.1.2) = [] ∧
  ko.1.1 = inl bad_query ∧ sessions_out (sqla ko.1.2) = [].
Proof. repeat split; reflexivity. Qed.

Example probe_on_healthy_database :
  (run (verify_database_connection globals) (imported healthy)).1.1 = inr true.
Proof. reflexivity. Qed.

Example probe_on_unreachable_database :
  let out := run (verify_database_connection globals) (imported unreachable) in
  out.1.1 = inr false ∧
  stdout out.1.2 = ["Error conectando a la base de datos: connection refused"].
Proof. split; reflexivity. Qed.

Example probe_on_failing_query :
  let out := run (verify_database_connection globals) (imported failing_query) in
  out.1.1 = inr false ∧ connections_out (sqla out.1.2) = [] ∧
  out.2 = [(Lib (Engine_connect (EngineRef 0)), None);
           (Lib (Connection_execute (ConnectionRef 3) "SELECT 1"), Some bad_query);
           (Lib (Connection_close (ConnectionRef 3)), None);
           (Print "Error conectando a la base de datos: syntax error", None)].
Proof. repeat split; reflexivity. Qed.


(** C9 as stated fails: the unit of work raises [bad_query], the pool is
    disposed so [close()] raises [pool_gone], and [pool_gone] is what
    comes out, in place of the caller's exception. *)
Lemma get_db_close_failure_replaces_error :
  let r := (unit_of_work (get_db globals) (λ _, Raise (A:=unit) bad_query)
              (imported (with_disposed healthy))).1.1 in
  r = inl pool_gone ∧ r ≠ inl bad_query.
Proof. split; [reflexivity | discriminate]. Qed.

Lemma get_db_closes_session_witness :
  let out := unit_of_work (get_db globals) (λ _, Raise (A:=unit) bad_query)
               (imported healthy) in
  out.2 = [(Lib (Factory_call (FactoryRef 1)), None);
           (Lib (Session_close (SessionRef 3)), None)]
  ∧ sessions_out (sqla out.1.2) = [].
Proof.
  pose (first := gen_next (Gen_created _ (get_db globals)) (imported healthy)).
  assert (first = (Gen_yield _ (SessionRef 3), first.1.1.2, first.1.2, first.2))
    as Hfirst by reflexivity.
  destruct (get_db_closes_session _ _ _ _ _ _ Hfirst) as (_ & _ & Hwork).
  destruct (Hwork unit (λ _, Raise bad_query)) as [r Hr].
  cbv zeta. rewrite Hr. split; reflexivity.
Defined.

Lemma get_db_close_failure_propagates_witness :
  (unit_of_work (get_db globals) (λ _, Raise (A:=unit) bad_query)
     (imported (with_disposed healthy))).1.1 = inl pool_gone
  ∧ (unit_of_work (get_db globals) (λ _, Ret 7)
       (Raising.process Raising.close_stops)).1.1 = inl stop_iteration_error.
Proof.
  split.
  - pose (first := gen_next (Gen_created _ (get_db globals))
                     (imported (with_disposed healthy))).
    assert (first = (Gen_yield _ (SessionRef 3), first.1.1.2, first.1.2, first.2))
      as Hfirst by reflexivity.
    assert (sqla_call (Session_close (SessionRef 3)) (sqla first.1.2)
            = (inl pool_gone, sqla first.1.2)) as Hclose by reflexivity.
    assert (run (Raise (A:=unit) bad_query) first.1.2 = (inl bad_query, first.1.2, []))
      as Hwork by reflexivity.
    destruct (get_db_close_failure_propagates _ _ _ _ _ _ _ _ _ Hfirst Hclose)
      as [_ Hunit].
    by rewrite (Hunit unit (λ _, Raise bad_query) _ _ Hwork).
  - pose (first := gen_next (Gen_created _ (get_db globals))
                     (Raising.process Raising.close_stops)).
    assert (first = (Gen_yield _ (SessionRef 3), first.1.1.2, first.1.2, first.2))
      as Hfirst by reflexivity.
    assert (sqla_call (Session_close (SessionRef 3)) (sqla first.1.2)
            = (inl Raising.exhausted, sqla first.1.2)) as Hclose by reflexivity.
    assert (run (Ret (Y:=Empty_set) 7) first.1.2 = (inr 7, first.1.2, []))
      as Hwork by reflexivity.
    destruct (get_db_close_failure_propagates _ _ _ _ _ _ _ _ _ Hfirst Hclose)
      as [_ Hunit].
    by rewrite (Hunit nat (λ _, Ret 7) _ _ Hwork).
Defined.

Lemma get_db_reraises_after_close_witness :
  (unit_of_work (get_db globals) (λ _, Raise (A:=unit) Raising.exhausted)
     (imported healthy)).1.1 = inl Raising.exhausted
  ∧ (unit_of_work (get_db globals) (λ _, Raise (A:=unit) bad_query)
       (imported (with_disposed healthy))).1.1 = inl pool_gone.
Proof.
  split.
  - pose (first := gen_next (Gen_created _ (get_db globals)) (imported healthy)).
    assert (first = (Gen_yield _ (SessionRef 3), first.1.1.2, first.1.2, first.2))
      as Hfirst by reflexivity.
    assert (sqla_call (Session_close (SessionRef 3)) (sqla first.1.2)
            = (inr (), set_sessions (sqla first.1.2) [])) as Hclose by reflexivity.
    assert (run (Raise (A:=unit) Raising.exhausted) first.1.2
            = (inl Raising.exhausted, first.1.2, [])) as Hwork by reflexivity.
    destruct (get_db_reraises_after_close _ _ _ _ _ _ first.1.2 Raising.exhausted
                Hfirst) as [Hreturns _].
    destruct (Hreturns _ Hclose) as [_ Hunit].
    by rewrite (Hunit unit (λ _, Raise Raising.exhausted) _ Hwork).
  - pose (first := gen_next (Gen_created _ (get_db globals))
                     (imported (with_disposed healthy))).
    assert (first = (Gen_yield _ (SessionRef 3), first.1.1.2, first.1.2, first.2))
      as Hfirst by reflexivity.
    assert (sqla_call (Session_close (SessionRef 3)) (sqla first.1.2)
            = (inl pool_gone, sqla first.1.2)) as Hclose by reflexivity.
    assert (run (Raise (A:=unit) bad_query) first.1.2 = (inl bad_query, first.1.2, []))
      as Hwork by reflexivity.
    destruct (get_db_reraises_after_close _ _ _ _ _ _ first.1.2 bad_query
                Hfirst) as [_ Hraises].
    destruct (Hraises _ _ Hclose) as [_ Hunit].
    by rewrite (Hunit unit (λ _, Raise bad_query) _ Hwork).
Defined.

Lemma dotenv_keeps_environment_witness :
  let w := process [("ENVIRONMENT", "production")]
             (Some [("DATABASE_URL", catalog_url); ("ENVIRONMENT", "development")])
             healthy in
  environ (run module_init w).1.2 !! "ENVIRONMENT" = Some "production" ∧
  environ (run module_init w).1.2 !! "DATABASE_URL" = Some catalog_url.
Proof.
  intros w. pose (out := run module_init w).
  assert (run module_init w = (out.1.1, out.1.2, out.2)) as Hrun
    by (fold out; by destruct out as [[??]?]).
  destruct (dotenv_keeps_environment _ _ _ _ Hrun) as (_ & Hkeep & Hfill & _).
  fold out. split.
  - apply Hkeep. vm_compute. reflexivity.
  - rewrite Hfill; vm_compute; reflexivity.
Defined.

Lemma module_init_fails_fast_witness :
  (run module_init (process [] None healthy)).1.1 = inl config_error
  ∧ (run module_init (process [("DATABASE_URL", "")] None healthy)).1.1
    = inl config_error
  ∧ ∃ kw x,
      (run module_init (process [("DATABASE_URL", catalog_url)] None healthy)).2 !! 3
      = Some (Lib (Create_engine catalog_url kw), x).
Proof.
  split_and!.
  - destruct (module_init_fails_fast (process [] None healthy)) as [Hguard _].
    rewrite Hguard; [reflexivity | left; vm_compute; reflexivity].
  - destruct (module_init_fails_fast (process [("DATABASE_URL", "")] None healthy))
      as [Hguard _].
    rewrite Hguard; [reflexivity | right; vm_compute; reflexivity].
  - destruct (module_init_fails_fast
                (process [("DATABASE_URL", catalog_url)] None healthy))
      as [_ Hpass].
    destruct (Hpass catalog_url) as (r & w' & t & kw & x & Hrun & Hcreate & _);
      [vm_compute; reflexivity | discriminate |].
    rewrite Hrun. eauto.
Defined.

Lemma echo_iff_development_witness :
  let out := run module_init development in
  (Lib (Create_engine catalog_url (MkEngineKw true 5 10 true)), None) ∈ out.2
  ∧ environ out.1.2 !! "ENVIRONMENT" = Some "development".
Proof.
  intros out.
  assert ((Lib (Create_engine catalog_url (MkEngineKw true 5 10 true)), None) ∈ out.2)
    as Hin by (apply list_elem_of_lookup; exists 3; vm_compute; reflexivity).
  split; [exact Hin|].
  assert (run module_init development = (out.1.1, out.1.2, out.2)) as Hrun
    by (fold out; by destruct out as [[??]?]).
  destruct (echo_iff_development _ _ _ _ _ _ _ Hrun Hin) as (_ & Hecho & _).
  by apply Hecho.
Defined.

Lemma pool_never_exceeds_15_witness :
  let kw := MkEngineKw true 5 10 true in
  QueuePool.open_connections (QueuePool.serve kw (replicate 40 QueuePool.Checkout)) ≤ 15.
Proof.
  intros kw. pose (out := run module_init development).
  assert ((Lib (Create_engine catalog_url kw), None) ∈ out.2)
    as Hin by (apply list_elem_of_lookup; exists 3; vm_compute; reflexivity).
  assert (run module_init development = (out.1.1, out.1.2, out.2)) as Hrun
    by (fold out; by destruct out as [[??]?]).
  destruct (pool_never_exceeds_15 _ _ _ _ _ _ _ Hrun Hin) as (_ & _ & Hcap).
  destruct (Hcap (replicate 40 QueuePool.Checkout)) as [Hopen _]. exact Hopen.
Defined.

Lemma session_writes_are_buffered_witness :
  let kw := MkSessionKw false false (EngineRef 0) in
  let s := OrmSession.serve kw ["row 1"]
             [OrmSession.Add "INSERT"; OrmSession.Query; OrmSession.Add "UPDATE"] in
  OrmSession.sent s = [] ∧ OrmSession.committed s = ["row 1"] ∧
  OrmSession.pending s = ["INSERT"; "UPDATE"].
Proof.
  intros kw. pose (out := run module_init development).
  assert ((Lib (Sessionmaker kw), None) ∈ out.2)
    as Hin by (apply list_elem_of_lookup; exists 4; vm_compute; reflexivity).
  assert (run module_init development = (out.1.1, out.1.2, out.2)) as Hrun
    by (fold out; by destruct out as [[??]?]).
  destruct (session_writes_are_buffered _ _ _ _ _ _ Hrun Hin) as (_ & _ & Hbuf).
  exact (Hbuf ["row 1"]
           [OrmSession.Add "INSERT"; OrmSession.Query; OrmSession.Add "UPDATE"]
           ltac:(repeat constructor)).
Defined.

(** With an empty DATABASE_URL in the environment, the file's value is
    not taken: the variable is present, and the module fails. *)
Example dotenv_does_not_fill_empty_variable :
  (run module_init
     (process [("DATABASE_URL", "")] (Some [("DATABASE_URL", catalog_url)]) healthy)).1.1
  = inl config_error.
Proof. vm_compute. reflexivity. Qed.

Example dotenv_fills_missing_variable :
  (run module_init
     (process [] (Some [("DATABASE_URL", catalog_url); ("ENVIRONMENT", "development")])
        healthy)).2 !! 3
  = Some (Lib (Create_engine catalog_url (MkEngineKw true 5 10 true)), None).
Proof. vm_compute. reflexivity. Qed.

End Runs.

(** * Further properties of the module *)

(** ** Import *)

Section Startup.
Context {L : Type} `{!SQLAlchemy L}.
Implicit Types w : World L.

(** X1.  A successful import performs, in this order and nothing else: the
    load of the [.env] file, the two reads of the environment,
    [create_engine] with the DATABASE_URL of the environment,
    [sessionmaker] bound to the engine that [create_engine] returned, and
    [declarative_base]; the module's names are the objects these calls
    returned, and nothing is printed. *)
Theorem module_init_success w m w' t :
  run module_init w = (inr m, w', t) →
  ∃ kw l1 l2,
    t = [(Load_dotenv, None); (Getenv "DATABASE_URL", None);
         (Getenv "ENVIRONMENT", None);
         (Lib (Create_engine (DATABASE_URL m) kw), None);
         (Lib (Sessionmaker {| autocommit := false; autoflush := false;
                               bind := engine m |}), None);
         (Lib Declarative_base, None)] ∧
    environ w' !! "DATABASE_URL" = Some (DATABASE_URL m) ∧
    DATABASE_URL m ≠ "" ∧
    sqla_call (Create_engine (DATABASE_URL m) kw) (sqla w) = (inr (engine m), l1) ∧
    sqla_call (Sessionmaker {| autocommit := false; autoflush := false;
                               bind := engine m |}) l1
      = (inr (SessionLocal m), l2) ∧
    sqla_call Declarative_base l2 = (inr (Base m), sqla w') ∧
    stdout w' = stdout w.
Proof.
  rewrite module_init_guard. cbv zeta. simpl.
  destruct (truthy _) eqn:Hurl; [|done].
  apply truthy_true in Hurl as (s & Hs & Hne). rewrite Hs. simpl.
  destruct (sqla_call _ (sqla w)) as [[e|eng] l1] eqn:Hcreate; [done|].
  destruct (sqla_call _ l1) as [[e|fac] l2] eqn:Hmake; [done|].
  destruct (sqla_call _ l2) as [[e|base] l3] eqn:Hbase; [done|].
  intros [= <- <- <-]. simpl. rewrite Hs.
  eexists _, l1, l2. split_and!; done.
Qed.

(** X2.  A failing import fails either at the guard, with the
    configuration error and only the two reads made, or at a library
    call: then every operation before it returned, its exception is the
    one that comes out, and no operation follows it. *)
Theorem module_init_stops_at_first_failure w e w' t :
  run module_init w = (inl e, w', t) →
  (e = config_error ∧
   t = [(Load_dotenv, None); (Getenv "DATABASE_URL", None)])
  ∨ (∃ (o : lib_op) before,
       t = before ++ [(Lib o, Some e)] ∧
       Forall (λ ev : event, ev.2 = None) before).
Proof.
  rewrite module_init_guard. cbv zeta. simpl.
  destruct (truthy _) eqn:Hurl.
  - destruct (sqla_call _ (sqla w)) as [[e1|eng] l1].
    { intros [= <- <- <-]. right.
      eexists _, [_; _; _]. split; [done|]. by repeat constructor. }
    destruct (sqla_call _ l1) as [[e2|fac] l2].
    { intros [= <- <- <-]. right.
      eexists _, [_; _; _; _]. split; [done|]. by repeat constructor. }
    destruct (sqla_call _ l2) as [[e3|base] l3]; [|done].
    intros [= <- <- <-]. right.
    eexists _, [_; _; _; _; _]. split; [done|]. by repeat constructor.
  - intros [= <- <- <-]. by left.
Qed.

(** X3.  The connection string the engine is created with is the
    DATABASE_URL of the process environment when it has one, and the one of
    the [.env] file only when the environment has none: with [s] that
    value, and [s] non-empty, the fourth operation of the import is
    [create_engine] with [s]. *)
Theorem module_init_uses_effective_url w s :
  match environ w !! "DATABASE_URL" with
  | Some v => Some v
  | None => dotenv_file w ≫= (λ vars, vars !! "DATABASE_URL")
  end = Some s →
  s ≠ "" →
  ∃ r w' t kw x,
    run module_init w = (r, w', t) ∧
    t !! 3 = Some (Lib (Create_engine s kw), x).
Proof.
  intros Hs Hne. rewrite <- load_dotenv_lookup in Hs.
  assert (truthy (Some s) = true) as Ht by (apply truthy_true; eauto).
  rewrite module_init_guard. cbv zeta. simpl. rewrite Hs, Ht. simpl.
  destruct (sqla_call _ (sqla w)) as [[e|eng] l1]; [by do 5 eexists|].
  destruct (sqla_call _ l1) as [[e|fac] l2]; [by do 5 eexists|].
  destruct (sqla_call _ l2) as [r3 l3]. by do 5 eexists.
Qed.

(** X4.  A DATABASE_URL that is set but empty in the process environment
    is not filled in from the [.env] file: the import fails with the
    configuration error whatever the file holds. *)
Theorem module_init_empty_variable_hides_file w :
  environ w !! "DATABASE_URL" = Some "" →
  run module_init w =
  (inl config_error,
   set_environ w (load_dotenv false (dotenv_file w) (environ w)),
   [(Load_dotenv, None); (Getenv "DATABASE_URL", None)]).
Proof.
  intros Hempty. rewrite module_init_guard. cbv zeta. simpl.
  by rewrite load_dotenv_lookup, Hempty.
Qed.

(** X5.  The engine echoes its queries exactly when ENVIRONMENT is
    "development" in the process environment, or is not set there and is
    "development" in the [.env] file; a value in the environment other
    than "development" keeps the engine silent whatever the file says. *)
Theorem echo_follows_environment_then_file w r w' t url kw x :
  run module_init w = (r, w', t) →
  (Lib (Create_engine url kw), x) ∈ t →
  echo kw = true ↔
    environ w !! "ENVIRONMENT" = Some "development" ∨
    (environ w !! "ENVIRONMENT" = None ∧
     ∃ vars, dotenv_file w = Some vars ∧
             vars !! "ENVIRONMENT" = Some "development").
Proof.
  intros Hrun Hin.
  destruct (module_init_calls _ _ _ _ Hrun) as (Henv & Hcreate & _).
  destruct (Hcreate _ _ _ Hin) as (_ & _ & ->). simpl.
  unfold is_development. rewrite bool_decide_eq_true, Henv, load_dotenv_lookup.
  destruct (environ w !! "ENVIRONMENT") as [v|] eqn:Hv.
  - split; [by left | by intros [?|[? _]]].
  - destruct (dotenv_file w) as [vars|]; simpl.
    + split; [intros Hf; right; eauto | by intros [?|[_ (vars' & [= <-] & ?)]]].
    + split; [done | by intros [?|[_ (vars' & ? & _)]]].
Qed.

End Startup.

(** ** The session provider, further *)

Section Lifecycle.
Context {L : Type} `{!SQLAlchemy L}.
Implicit Types (w : World L) (db : Session) (m : Globals).

Lemma gen_drive_closed {Y} (ss : list resume) w :
  gen_drive (Gen_closed Y) ss w =
  (map (λ s, match s with
             | Resume_next => Gen_stop Y
             | Resume_throw e => Gen_raise Y e
             end) ss, Gen_closed Y, w, []).
Proof.
  induction ss as [|s ss IH]; simpl; [done|].
  destruct s as [|e]; simpl; by rewrite IH.
Qed.

(** X6.  When the session factory raises [e], [get_db] ends at its first
    [next()] without yielding; the unit of work is not run and [close()]
    is not called: the factory call is the only operation.  What comes
    out is [e] itself, except that Python hands a [StopIteration] out of a
    generator as the [RuntimeError] "generator raised StopIteration" made
    from it. *)
Theorem get_db_factory_failure m w e l :
  sqla_call (Factory_call (SessionLocal m)) (sqla w) = (inl e, l) →
  gen_next (Gen_created _ (get_db m)) w =
    (if is_StopIteration e then Gen_runtime_error _ e false else Gen_raise _ e,
     Gen_closed _, set_sqla w l,
     [(Lib (Factory_call (SessionLocal m)), Some e)])
  ∧ ∀ A (work : Session → Prog Empty_set A),
      unit_of_work (get_db m) work w =
      (inl (if is_StopIteration e then stop_iteration_error else e),
       set_sqla w l, [(Lib (Factory_call (SessionLocal m)), Some e)]).
Proof.
  intros Hopen. split.
  - rewrite get_db_starts. cbv zeta. by rewrite Hopen.
  - intros A work. rewrite unit_of_work_get_db. cbv zeta. by rewrite Hopen.
Qed.

(** X7.  [get_db] closes its session exactly once: after the yield,
    however many times and in whatever way the generator is resumed, the
    only operation of all the resumptions together is the one [close()]
    on the yielded session, made by the first of them; the generator is
    finished and later resumptions do nothing. *)
Theorem get_db_closes_exactly_once m w db g w0 t0 s ss w1 :
  gen_next (Gen_created _ (get_db m)) w = (Gen_yield _ db, g, w0, t0) →
  ∃ rs,
    gen_drive g (s :: ss) w1 =
    (rs, Gen_closed _,
     set_sqla w1 (sqla_call (Session_close db) (sqla w1)).2,
     [(Lib (Session_close db), raised (sqla_call (Session_close db) (sqla w1)).1)])
    ∧ length rs = S (length ss).
Proof.
  intros Hnext. apply get_db_yielded in Hnext as (-> & _ & _ & _).
  cbn [gen_drive]. rewrite get_db_resumes.
  destruct (sqla_call (Session_close db) (sqla w1)) as [rc l].
  rewrite gen_drive_closed. eexists. split; [done|].
  simpl. by rewrite length_map.
Qed.

(** X8.  When the unit of work returns a value and [close()] returns, that
    value is the result of the whole unit of work, and the operations are
    the factory call, those of the work, and the close, in this order. *)
Theorem unit_of_work_returns_value m {A} (work : Session → Prog Empty_set A)
    w db l0 a w1 t1 l2 :
  sqla_call (Factory_call (SessionLocal m)) (sqla w) = (inr db, l0) →
  run (work db) (set_sqla w l0) = (inr a, w1, t1) →
  sqla_call (Session_close db) (sqla w1) = (inr (), l2) →
  unit_of_work (get_db m) work w =
  (inr a, set_sqla w1 l2,
   (Lib (Factory_call (SessionLocal m)), None) :: t1
     ++ [(Lib (Session_close db), None)]).
Proof.
  intros Hopen Hwork Hclose.
  rewrite unit_of_work_get_db. cbv zeta. by rewrite Hopen, Hwork, Hclose.
Qed.

(** X9.  When a caller drops the generator at its yield instead of
    resuming it, the session is closed all the same; nothing is raised
    when [close()] returns, and a failure of [close()] that is an
    [Exception] comes out. *)
Theorem get_db_dropped_generator m w db g w0 t0 w1 :
  gen_next (Gen_created _ (get_db m)) w = (Gen_yield _ db, g, w0, t0) →
  (∀ l, sqla_call (Session_close db) (sqla w1) = (inr (), l) →
        gen_close g w1 =
        (inr (), Gen_closed _, set_sqla w1 l, [(Lib (Session_close db), None)]))
  ∧ (∀ ec l, sqla_call (Session_close db) (sqla w1) = (inl ec, l) →
        exn_cls ec ≠ StopIteration → isinstance_Exception ec = true →
        gen_close g w1 =
        (inl ec, Gen_closed _, set_sqla w1 l, [(Lib (Session_close db), Some ec)])).
Proof.
  intros Hnext. apply get_db_yielded in Hnext as (-> & _ & _ & _). split.
  - intros l Hclose. by rewrite get_db_dropped, Hclose.
  - intros ec l Hclose Hstop Hexc. rewrite get_db_dropped, Hclose.
    unfold isinstance_Exception in Hexc. unfold is_StopIteration.
    by destruct (exn_cls ec).
Qed.

End Lifecycle.

(** ** The start-up probe, further *)

Section Liveness.
Context {L : Type} `{!SQLAlchemy L}.
Implicit Types (w : World L) (m : Globals).

(** X10.  The probe returns true exactly when [engine.connect()], the
    query and the close of the connection all returned. *)
Theorem verify_database_connection_true_iff m w :
  (run (verify_database_connection m) w).1.1 = inr true ↔
  ∃ c l0 l1 l2,
    sqla_call (Engine_connect (engine m)) (sqla w) = (inr c, l0) ∧
    sqla_call (Connection_execute c "SELECT 1") l0 = (inr (), l1) ∧
    sqla_call (Connection_close c) l1 = (inr (), l2).
Proof.
  rewrite run_verify, run_probe. cbv zeta.
  destruct (sqla_call _ (sqla w)) as [[e|c] l0]; simpl.
  - split.
    + by destruct (isinstance_Exception e).
    + by intros (c & ? & ? & ? & [=] & _).
  - destruct (sqla_call _ l0) as [r1 l1] eqn:Hexec.
    destruct (sqla_call _ l1) as [r2 l2] eqn:Hclose.
    destruct r2 as [e2|[]]; [|destruct r1 as [e1|[]]]; simpl.
    + split; [by destruct (isinstance_Exception e2)|].
      intros (c' & ? & ? & ? & [= <- <-] & Hexec' & Hclose').
      rewrite Hexec in Hexec'. injection Hexec' as -> ->.
      rewrite Hclose in Hclose'. done.
    + split; [by destruct (isinstance_Exception e1)|].
      intros (c' & ? & ? & ? & [= <- <-] & Hexec' & _).
      rewrite Hexec in Hexec'. done.
    + split; [|done]. intros _. by exists c, l0, l1, l2.
Qed.

(** X11.  A failure while the probe's connection is closed decides the
    outcome, whether the query had returned or raised: when [close()]
    raises an [Exception], the probe returns false and the message
    printed is that of the close failure. *)
Theorem probe_close_failure_reported m w c l0 r1 l1 e2 l2 :
  sqla_call (Engine_connect (engine m)) (sqla w) = (inr c, l0) →
  sqla_call (Connection_execute c "SELECT 1") l0 = (r1, l1) →
  sqla_call (Connection_close c) l1 = (inl e2, l2) →
  isinstance_Exception e2 = true →
  run (verify_database_connection m) w =
  (inr false,
   set_stdout (set_sqla w l2) (stdout w ++ [probe_message e2]),
   [(Lib (Engine_connect (engine m)), None);
    (Lib (Connection_execute c "SELECT 1"), raised r1);
    (Lib (Connection_close c), Some e2);
    (Print (probe_message e2), None)]).
Proof.
  intros Hconnect Hexec Hclose Hexc.
  rewrite run_verify, run_probe. cbv zeta.
  by rewrite Hconnect, Hexec, Hclose, Hexc.
Qed.

End Liveness.

(** ** Further runs on concrete processes *)

Section FurtherRuns.
Import Stub.

Lemma module_init_success_witness :
  (run module_init development).2 !! 4
  = Some (Lib (Sessionmaker {| autocommit := false; autoflush := false;
                               bind := EngineRef 0 |}), None).
Proof.
  pose (out := run module_init development).
  assert (run module_init development = (inr globals, out.1.2, out.2)) as Hrun
    by (vm_compute; reflexivity).
  destruct (module_init_success _ _ _ _ Hrun) as (kw & l1 & l2 & Ht & _).
  fold out. rewrite Ht. reflexivity.
Defined.

Lemma module_init_stops_at_first_failure_witness :
  let out := run module_init (Scripted.process Scripted.no_session_factory) in
  out.1.1 = inl refused ∧
  ∃ (o : lib_op) before,
    out.2 = before ++ [(Lib o, Some refused)] ∧
    Forall (λ ev : event, ev.2 = None) before.
Proof.
  intros out.
  assert (run module_init (Scripted.process Scripted.no_session_factory)
          = (inl refused, out.1.2, out.2)) as Hrun by (vm_compute; reflexivity).
  split; [reflexivity|].
  destruct (module_init_stops_at_first_failure _ _ _ _ Hrun) as [[Hguard _]|Hlib].
  - discriminate Hguard.
  - exact Hlib.
Defined.

Lemma module_init_uses_effective_url_witness :
  ∃ kw x,
    (run module_init
       (process [("ENVIRONMENT", "production")]
          (Some [("DATABASE_URL", catalog_url)]) healthy)).2 !! 3
    = Some (Lib (Create_engine catalog_url kw), x).
Proof.
  destruct (module_init_uses_effective_url
              (process [("ENVIRONMENT", "production")]
                 (Some [("DATABASE_URL", catalog_url)]) healthy) catalog_url)
    as (r & w' & t & kw & x & Hrun & Hcreate);
    [vm_compute; reflexivity | discriminate |].
  rewrite Hrun. eauto.
Defined.

Lemma module_init_empty_variable_hides_file_witness :
  (run module_init
     (process [("DATABASE_URL", "")] (Some [("DATABASE_URL", catalog_url)])
        healthy)).1.1
  = inl config_error.
Proof.
  rewrite module_init_empty_variable_hides_file;
    [reflexivity | vm_compute; reflexivity].
Defined.

Lemma echo_follows_environment_then_file_witness :
  let w := process [("DATABASE_URL", catalog_url); ("ENVIRONMENT", "production")]
             (Some [("ENVIRONMENT", "development")]) healthy in
  (Lib (Create_engine catalog_url (MkEngineKw true 5 10 false)), None)
    ∈ (run module_init w).2
  ∧ environ w !! "ENVIRONMENT" ≠ Some "development".
Proof.
  intros w. pose (out := run module_init w).
  assert ((Lib (Create_engine catalog_url (MkEngineKw true 5 10 false)), None) ∈ out.2)
    as Hin by (apply list_elem_of_lookup; exists 3; vm_compute; reflexivity).
  split; [exact Hin|].
  assert (run module_init w = (out.1.1, out.1.2, out.2)) as Hrun
    by (fold out; by destruct out as [[??]?]).
  destruct (echo_follows_environment_then_file _ _ _ _ _ _ _ Hrun Hin) as [_ Hecho].
  intros Hdev. by specialize (Hecho (or_introl Hdev)).
Defined.

Lemma get_db_factory_failure_witness :
  unit_of_work (get_db globals) (λ _, Ret 7)
    (Scripted.process Scripted.no_sessions)
  = (inl refused, Scripted.process Scripted.no_sessions,
     [(Lib (Factory_call (FactoryRef 1)), Some refused)])
  ∧ (unit_of_work (get_db globals) (λ _, Ret 7)
       (Raising.process Raising.factory_stops)).1.1 = inl stop_iteration_error.
Proof.
  split.
  - assert (sqla_call (Factory_call (SessionLocal globals))
              (sqla (Scripted.process Scripted.no_sessions))
            = (inl refused, Scripted.no_sessions)) as Hopen by reflexivity.
    destruct (get_db_factory_failure _ _ _ _ Hopen) as [_ Hunit].
    exact (Hunit nat (λ _, Ret 7)).
  - assert (sqla_call (Factory_call (SessionLocal globals))
              (sqla (Raising.process Raising.factory_stops))
            = (inl Raising.exhausted, Raising.factory_stops)) as Hopen by reflexivity.
    destruct (get_db_factory_failure _ _ _ _ Hopen) as [_ Hunit].
    by rewrite (Hunit nat (λ _, Ret 7)).
Defined.

Lemma get_db_closes_exactly_once_witness :
  let first := gen_next (Gen_created _ (get_db globals)) (imported healthy) in
  (gen_drive first.1.1.2 [Resume_throw bad_query; Resume_next; Resume_next]
     first.1.2).2
  = [(Lib (Session_close (SessionRef 3)), None)].
Proof.
  intros first.
  assert (first = (Gen_yield _ (SessionRef 3), first.1.1.2, first.1.2, first.2))
    as Hfirst by reflexivity.
  destruct (get_db_closes_exactly_once _ _ _ _ _ _ (Resume_throw bad_query)
              [Resume_next; Resume_next] first.1.2 Hfirst) as (rs & Hdrive & _).
  rewrite Hdrive. reflexivity.
Defined.

Lemma unit_of_work_returns_value_witness :
  (unit_of_work (get_db globals) (λ _, Ret 7) (imported healthy)).1.1 = inr 7.
Proof.
  pose (first := gen_next (Gen_created _ (get_db globals)) (imported healthy)).
  assert (sqla_call (Factory_call (SessionLocal globals)) (sqla (imported healthy))
          = (inr (SessionRef 3), sqla first.1.2)) as Hopen by reflexivity.
  assert (run (Ret (Y:=Empty_set) 7) (set_sqla (imported healthy) (sqla first.1.2))
          = (inr 7, first.1.2, [])) as Hwork by reflexivity.
  assert (sqla_call (Session_close (SessionRef 3)) (sqla first.1.2)
          = (inr (), set_sessions (sqla first.1.2) [])) as Hclose by reflexivity.
  by rewrite (unit_of_work_returns_value globals (λ _, Ret 7) _ _ _ _ _ _ _
                Hopen Hwork Hclose).
Defined.

Lemma get_db_dropped_generator_witness :
  let first := gen_next (Gen_created _ (get_db globals)) (imported healthy) in
  (gen_close first.1.1.2 first.1.2).1.1.1 = inr () ∧
  sessions_out (sqla (gen_close first.1.1.2 first.1.2).1.2) = [].
Proof.
  intros first.
  assert (first = (Gen_yield _ (SessionRef 3), first.1.1.2, first.1.2, first.2))
    as Hfirst by reflexivity.
  assert (sqla_call (Session_close (SessionRef 3)) (sqla first.1.2)
          = (inr (), set_sessions (sqla first.1.2) [])) as Hclose by reflexivity.
  destruct (get_db_dropped_generator _ _ _ _ _ _ first.1.2 Hfirst) as [Hquiet _].
  rewrite (Hquiet _ Hclose). split; reflexivity.
Defined.

Lemma probe_close_failure_reported_witness :
  let out := run (verify_database_connection globals)
               (Scripted.process Scripted.no_connection_close) in
  out.1.1 = inr false ∧
  stdout out.1.2 = ["Error conectando a la base de datos: connection refused"].
Proof.
  intros out. unfold out.
  rewrite (probe_close_failure_reported globals
             (Scripted.process Scripted.no_connection_close)
             (ConnectionRef 4) Scripted.no_connection_close (inr ())
             Scripted.no_connection_close refused Scripted.no_connection_close
             eq_refl eq_refl eq_refl eq_refl).
  split; reflexivity.
Defined.

Lemma verify_database_connection_true_iff_witness :
  (run (verify_database_connection globals) (imported healthy)).1.1 = inr true.
Proof.
  apply verify_database_connection_true_iff. by eexists _, _, _, _.
Defined.

(** A [StopIteration] thrown into the paused generator leaves it as the
    [RuntimeError] made from it, once the session is closed; the caller of
    the unit of work raises the [StopIteration] again. *)
Example stop_iteration_through_get_db :
  let first := gen_next (Gen_created _ (get_db globals)) (imported healthy) in
  let thrown := gen_throw first.1.1.2 Raising.exhausted first.1.2 in
  thrown.1.1.1 = Gen_runtime_error _ Raising.exhausted true ∧
  gen_exception thrown.1.1.1 = Some stop_iteration_error ∧
  thrown.2 = [(Lib (Session_close (SessionRef 3)), None)] ∧
  (unit_of_work (get_db globals) (λ _, Raise (A:=unit) Raising.exhausted)
     (imported healthy)).1.1 = inl Raising.exhausted.
Proof. repeat split; reflexivity. Qed.

(** When [close()] raises a [StopIteration] equal to the one the unit of
    work raised, it is still the close failure that comes out, as a
    [RuntimeError]. *)
Example equal_stop_iterations_are_told_apart :
  (unit_of_work (get_db globals) (λ _, Raise (A:=unit) Raising.exhausted)
     (Raising.process Raising.close_stops)).1.1 = inl stop_iteration_error.
Proof. reflexivity. Qed.

End FurtherRuns.
